(** * Products API: a shallow embedding of the Express servers

    The repository holds three versions of one REST resource:
    - the in-memory server with error classes, filtering, pagination and
      statistics (second half of [routes/productRoutes.js]), module [Rich];
    - the starter in-memory server ([server.js]), module [Lean];
    - the Mongoose-backed router (first half of [routes/productRoutes.js]),
      module [Mongo].

    JavaScript values are modelled as far as the handlers inspect them:
    strings are sequences of code units below 256, numbers that are only
    compared and passed on are rationals, numbers produced by [parseInt] are
    integers, plain objects used as dictionaries are [gmap]s with the lookups
    through [Object.prototype] written out. *)

From Stdlib Require Import ZArith QArith List String Ascii Bool Lia.
From stdpp Require Import gmap strings.

Set Warnings "-register-all".

Local Open Scope string_scope.
Local Open Scope Z_scope.

(** ** JavaScript primitives used by the handlers *)

Module JS.

(** White space and line terminators among the code units below 256, as
    removed by [String.prototype.trim] and skipped by [parseInt]: U+0009 to
    U+000D, the space and the no-break space U+00A0. *)
Definition is_ws (c : ascii) : bool :=
  let n := nat_of_ascii c in
  ((9 <=? n) && (n <=? 13) || (n =? 32) || (n =? 160))%nat.

Fixpoint trimStart (s : string) : string :=
  match s with
  | EmptyString => EmptyString
  | String c r => if is_ws c then trimStart r else s
  end.

Fixpoint trimEnd (s : string) : string :=
  match s with
  | EmptyString => EmptyString
  | String c r =>
      match trimEnd r with
      | EmptyString => if is_ws c then EmptyString else String c EmptyString
      | r' => String c r'
      end
  end.

(** [s.trim()] *)
Definition trim (s : string) : string := trimEnd (trimStart s).

(** The lower-case mapping of a code unit below 256: A to Z, and U+00C0 to
    U+00DE without the multiplication sign U+00D7. *)
Definition lower_ascii (c : ascii) : ascii :=
  let n := nat_of_ascii c in
  if ((65 <=? n) && (n <=? 90)
      || (192 <=? n) && (n <=? 222) && negb (n =? 215))%nat
  then ascii_of_nat (n + 32) else c.

(** [s.toLowerCase()] *)
Fixpoint toLowerCase (s : string) : string :=
  match s with
  | EmptyString => EmptyString
  | String c r => String (lower_ascii c) (toLowerCase r)
  end.

(** [s.includes(t)] *)
Fixpoint includes (s t : string) : bool :=
  if String.prefix t s then true
  else match s with
       | EmptyString => false
       | String _ r => includes r t
       end.

Definition digit_of (c : ascii) : option Z :=
  let n := nat_of_ascii c in
  if ((48 <=? n) && (n <=? 57))%nat then Some (Z.of_nat n - 48) else None.

(** The longest prefix of decimal digits; [acc] is [None] until a digit
    has been read. *)
Fixpoint read_digits (s : string) (acc : option Z) : option Z :=
  match s with
  | EmptyString => acc
  | String c r =>
      match digit_of c with
      | Some d => read_digits r (Some (10 * default 0 acc + d))
      | None => acc
      end
  end.

(** [parseInt(s, 10)]; [None] stands for [NaN].  The value is the exact
    integer the digits denote; the language rounds it to a double, which
    differs from 2^53 on. *)
Definition parseInt (s : string) : option Z :=
  match trimStart s with
  | String "-" r => Z.opp <$> read_digits r None
  | String "+" r => read_digits r None
  | s' => read_digits s' None
  end.

(** [Math.max(a, b)] and [Math.min(a, b)] on integers. *)
Definition Math_max (a b : Z) : Z := Z.max a b.
Definition Math_min (a b : Z) : Z := Z.min a b.

(** [arr.slice(start, end)] with the relative indices of the language:
    a negative index counts from the end, indices are clamped to the
    length. *)
Definition rel_index (len k : Z) : Z :=
  if k <? 0 then Z.max (len + k) 0 else Z.min k len.

Definition slice {A} (l : list A) (start stop : Z) : list A :=
  let len := Z.of_nat (length l) in
  let k := rel_index len start in
  let final := rel_index len stop in
  firstn (Z.to_nat (final - k)) (skipn (Z.to_nat k) l).

(** [arr.findIndex(f)]; [None] stands for [-1]. *)
Fixpoint findIndex {A} (f : A -> bool) (l : list A) : option nat :=
  match l with
  | [] => None
  | x :: r => if f x then Some 0%nat else S <$> findIndex f r
  end.

(** [arr[i] = x] for an index inside the array. *)
Definition set_at {A} (l : list A) (i : nat) (x : A) : list A := <[i := x]> l.

(** [arr.splice(i, 1)]: the array without element [i]. *)
Definition splice1 {A} (l : list A) (i : nat) : list A :=
  (firstn i l ++ skipn (S i) l)%list.

(** Values of a parsed JSON document. *)
Inductive json :=
| JNull
| JBool (b : bool)
| JNum (q : Q)
| JStr (s : string)
| JArr (l : list json)
| JObj (l : list (string * json)).

Inductive type_tag := TString | TNumber | TBoolean | TObject | TUndefined.

(** [typeof v]; a missing property is [undefined]. *)
Definition typeof (v : option json) : type_tag :=
  match v with
  | None => TUndefined
  | Some (JStr _) => TString
  | Some (JNum _) => TNumber
  | Some (JBool _) => TBoolean
  | Some _ => TObject
  end.

Definition num_is_zero (q : Q) : bool := (Qnum q =? 0)%Z.
Definition num_lt0 (q : Q) : bool := (Qnum q <? 0)%Z.

(** Truthiness, so that [!v] is [negb (truthy v)]. *)
Definition truthy (v : option json) : bool :=
  match v with
  | None | Some JNull => false
  | Some (JBool b) => b
  | Some (JNum q) => negb (num_is_zero q)
  | Some (JStr s) => negb (String.eqb s "")
  | Some (JArr _) | Some (JObj _) => true
  end.

(** A value of [req.query] as the extended query parser builds it. *)
Inductive qval :=
| QStr (s : string)
| QArr (l : list qval)
| QObj (l : list (string * qval)).

Definition join_comma (l : list string) : string :=
  match l with
  | [] => ""
  | x :: r => fold_left (fun acc y => acc ++ "," ++ y) r x
  end.

(** [String(v)] *)
Fixpoint to_String (v : qval) : string :=
  match v with
  | QStr s => s
  | QArr l => join_comma (map to_String l)
  | QObj _ => "[object Object]"
  end.

Definition qtruthy (v : option qval) : bool :=
  match v with
  | None => false
  | Some (QStr s) => negb (String.eqb s "")
  | Some _ => true
  end.

(** *** Plain objects used as dictionaries

    A property value of the accumulator object of the statistics handler:
    a number, a string, one of the built-in functions that every object
    inherits, or [Object.prototype] itself (the value of [__proto__]). *)
Inductive value :=
| VNum (n : Z)
| VStr (s : string)
| VNative (fname : string)
| VObjectPrototype.

(** The properties every object literal inherits. *)
Definition Object_prototype (k : string) : option value :=
  if String.eqb k "__proto__" then Some VObjectPrototype
  else if String.eqb k "constructor" then Some (VNative "Object")
  else if existsb (String.eqb k)
            ["__defineGetter__"; "__defineSetter__"; "hasOwnProperty";
             "__lookupGetter__"; "__lookupSetter__"; "isPrototypeOf";
             "propertyIsEnumerable"; "toString"; "valueOf";
             "toLocaleString"]
       then Some (VNative k)
  else None.

(** [o[k]]: own properties first, then the prototype; [None] is
    [undefined]. *)
Definition get (o : gmap string value) (k : string) : option value :=
  match o !! k with
  | Some v => Some v
  | None => Object_prototype k
  end.

Definition value_truthy (v : value) : bool :=
  match v with
  | VNum n => negb (n =? 0)
  | VStr s => negb (String.eqb s "")
  | VNative _ | VObjectPrototype => true
  end.

(** [v || 0] *)
Definition or_zero (v : option value) : value :=
  match v with
  | Some x => if value_truthy x then x else VNum 0
  | None => VNum 0
  end.

(** [v + 1]: addition on numbers, concatenation once the left operand
    converts to a string. *)
Definition plus_one (v : value) : value :=
  match v with
  | VNum n => VNum (n + 1)
  | VStr s => VStr (s ++ "1")
  | VNative f => VStr ("function " ++ f ++ "() { [native code] }" ++ "1")
  | VObjectPrototype => VStr "[object Object]1"
  end.

(** [o[k] = v] for a primitive [v]: an own data property is created or
    overwritten, except for [__proto__], whose inherited setter ignores
    primitives. *)
Definition set (o : gmap string value) (k : string) (v : value)
  : gmap string value :=
  if String.eqb k "__proto__" then o else <[k := v]> o.

End JS.

(** ** Records, requests and responses shared by the three versions *)

Module Product.
Record t := mk {
  id : string;
  name : string;
  description : string;
  price : Q;
  category : string;
  inStock : bool
}.
End Product.

Module Http.

(** [process.env] and the two sources of fresh data a handler reads:
    the clock and [uuidv4()]. *)
Record env := {
  NODE_ENV : option string;
  API_KEY : option string;
  now : string;
  uuid : string
}.

(** A request after Express has split it up.  [body] is [None] when the
    JSON text of the body does not parse. *)
Record request := {
  method : string;
  url : string;
  path : string;
  x_api_key : option string;
  query : gmap string JS.qval;
  body : option (gmap string JS.json)
}.

Record error_body := {
  e_name : string;
  e_message : string;
  e_statusCode : Z;
  e_timestamp : string;
  e_path : string;
  e_method : string
}.

Inductive payload :=
| Text (s : string)
| Envelope (page limit total : Z) (data : list Product.t)
| Stats (total inStock : Z) (byCategory : gmap string JS.value)
| ProductJson (p : Product.t)
| ProductList (l : list Product.t)
| WithMessage (message : string) (product : Product.t)
| ErrorJson (e : error_body)
| ErrorString (s : string)
| MessageJson (s : string)
| NoRoute.

Record response := { status : Z; content : payload }.

(** Errors that travel through [next(err)]. *)
Inductive error :=
| NotFoundError (message : string)
| ValidationError (message : string)
| AuthenticationError (message : string)
| ForeignError (name message : string) (status : option Z) (has_body : bool).

Inductive result (A : Type) :=
| Ok (a : A)
| Throw (e : error).
Arguments Ok {A} a.
Arguments Throw {A} e.

#[global] Instance result_ret : MRet result := fun _ a => Ok a.
#[global] Instance result_bind : MBind result := fun _ _ f m =>
  match m with
  | Ok a => f a
  | Throw e => Throw e
  end.

(** The sample data both in-memory servers start from. *)
Definition laptop : Product.t :=
  Product.mk "1" "Laptop" "High-performance laptop with 16GB RAM"
    (1200 # 1) "electronics" true.
Definition smartphone : Product.t :=
  Product.mk "2" "Smartphone" "Latest model with 128GB storage"
    (800 # 1) "electronics" true.
Definition coffee_maker : Product.t :=
  Product.mk "3" "Coffee Maker" "Programmable coffee maker with timer"
    (50 # 1) "kitchen" false.

Definition seed : list Product.t := [laptop; smartphone; coffee_maker].

(** The fields a handler destructures from a validated body. *)
Record fields := {
  f_name : string;
  f_description : string;
  f_price : Q;
  f_category : string;
  f_inStock : option bool
}.

Definition fields_of_body (b : gmap string JS.json) : option fields :=
  match b !! "name", b !! "description", b !! "price", b !! "category" with
  | Some (JS.JStr n), Some (JS.JStr d), Some (JS.JNum p), Some (JS.JStr c) =>
      match b !! "inStock" with
      | None => Some (Build_fields n d p c None)
      | Some (JS.JBool s) => Some (Build_fields n d p c (Some s))
      | Some _ => None
      end
  | _, _, _, _ => None
  end.

(** *** Route patterns *)

Inductive seg := Lit (s : string) | Param (name : string).

Fixpoint split_slash (s : string) : list string :=
  match s with
  | EmptyString => [EmptyString]
  | String c r =>
      if Ascii.eqb c "/" then EmptyString :: split_slash r
      else match split_slash r with
           | x :: xs => String c x :: xs
           | [] => [String c EmptyString]
           end
  end.

Fixpoint drop_last_empty (l : list string) : list string :=
  match l with
  | [] => []
  | [x] => if String.eqb x "" then [] else [x]
  | x :: r => x :: drop_last_empty r
  end.

(** The segments of a request path; one trailing slash is optional. *)
Definition segments (p : string) : option (list string) :=
  match p with
  | String "/" r => Some (drop_last_empty (split_slash r))
  | _ => None
  end.

(** Literal segments compare without regard to case; a parameter takes
    one non-empty segment, bound as it stands in the path: the framework
    decodes percent escapes in it, which leaves a segment without [%] as it
    is. *)
Fixpoint match_pattern (pat : list seg) (segs : list string)
  : option (list (string * string)) :=
  match pat, segs with
  | [], [] => Some []
  | Lit s :: pat', x :: segs' =>
      if String.eqb (JS.toLowerCase s) (JS.toLowerCase x)
      then match_pattern pat' segs' else None
  | Param n :: pat', x :: segs' =>
      if String.eqb x "" then None
      else cons (n, x) <$> match_pattern pat' segs'
  | _, _ => None
  end.

(** The first route, in registration order, whose method and pattern
    match.  The method is compared as given, which is the framework's rule
    for GET, POST, PUT and DELETE; its own answers to HEAD and OPTIONS are
    not part of the model. *)
Fixpoint dispatch {E} (routes : list (string * list seg * E))
    (m : string) (segs : list string) : option (E * list (string * string)) :=
  match routes with
  | [] => None
  | (m', pat, e) :: rest =>
      match (if String.eqb m m' then match_pattern pat segs else None) with
      | Some ps => Some (e, ps)
      | None => dispatch rest m segs
      end
  end.

Definition param (ps : list (string * string)) (k : string) : string :=
  match List.find (fun kv => String.eqb (fst kv) k) ps with
  | Some kv => snd kv
  | None => ""
  end.

End Http.

(** ** The in-memory server with error classes, filters and statistics *)

Module Rich.
Import Http.

(** [typeof v !== 'string' || v.trim().length === 0] *)
Definition not_nonempty_string (v : option JS.json) : bool :=
  match v with
  | Some (JS.JStr s) => (String.length (JS.trim s) =? 0)%nat
  | _ => true
  end.

(** [typeof v !== 'number' || v < 0] *)
Definition not_nonnegative_number (v : option JS.json) : bool :=
  match v with
  | Some (JS.JNum q) => JS.num_lt0 q
  | _ => true
  end.

Definition is_undefined (v : option JS.json) : bool :=
  match v with None => true | Some _ => false end.

Definition is_tag (t u : JS.type_tag) : bool :=
  match t, u with
  | JS.TString, JS.TString | JS.TNumber, JS.TNumber
  | JS.TBoolean, JS.TBoolean | JS.TObject, JS.TObject
  | JS.TUndefined, JS.TUndefined => true
  | _, _ => false
  end.

(** Validation middleware: the first failing rule raises. *)
Definition validateProduct (b : gmap string JS.json) : result unit :=
  let name := b !! "name" in
  let description := b !! "description" in
  let price := b !! "price" in
  let category := b !! "category" in
  let inStock := b !! "inStock" in
  if negb (JS.truthy name) || negb (JS.truthy description)
     || is_undefined price || negb (JS.truthy category)
  then Throw (ValidationError
         "Missing required fields: name, description, price, category are required")
  else if not_nonempty_string name
  then Throw (ValidationError "name must be a non-empty string")
  else if negb (is_tag (JS.typeof description) JS.TString)
  then Throw (ValidationError "description must be a string")
  else if not_nonnegative_number price
  then Throw (ValidationError "price must be a positive number")
  else if not_nonempty_string category
  then Throw (ValidationError "category must be a non-empty string")
  else if negb (is_undefined inStock)
          && negb (is_tag (JS.typeof inStock) JS.TBoolean)
  then Throw (ValidationError "inStock must be a boolean")
  else Ok tt.

(** [process.env.API_KEY || 'your-secret-api-key'] *)
Definition expectedApiKey (e : env) : string :=
  match API_KEY e with
  | Some k => if String.eqb k "" then "your-secret-api-key" else k
  | None => "your-secret-api-key"
  end.

(** Authentication middleware. *)
Definition authenticateApiKey (e : env) (req : request) : result unit :=
  match x_api_key req with
  | None => Throw (AuthenticationError "API key required in x-api-key header")
  | Some k =>
      if String.eqb k ""
      then Throw (AuthenticationError "API key required in x-api-key header")
      else if negb (String.eqb k (expectedApiKey e))
      then Throw (AuthenticationError "Invalid API key")
      else Ok tt
  end.

(** *** GET /api/products *)

Definition same_category (c : string) (p : Product.t) : bool :=
  String.eqb (JS.toLowerCase (Product.category p)) (JS.toLowerCase c).

Definition name_includes (qLower : string) (p : Product.t) : bool :=
  JS.includes (JS.toLowerCase (Product.name p)) qLower.

Definition filter_category (category : option JS.qval)
    (results : list Product.t) : list Product.t :=
  match category with
  | Some c =>
      if JS.qtruthy category
      then List.filter (same_category (JS.to_String c)) results
      else results
  | None => results
  end.

Definition filter_q (q : option JS.qval) (results : list Product.t)
  : list Product.t :=
  match q with
  | Some v =>
      if JS.qtruthy q
      then List.filter (name_includes (JS.toLowerCase (JS.to_String v))) results
      else results
  | None => results
  end.

(** [parseInt(v, 10) || d] *)
Definition parse_or (v : string) (d : Z) : Z :=
  match JS.parseInt v with
  | Some n => if n =? 0 then d else n
  | None => d
  end.

(** A query parameter with the default of the destructuring pattern. *)
Definition query_or (q : gmap string JS.qval) (k d : string) : string :=
  match q !! k with
  | Some v => JS.to_String v
  | None => d
  end.

Definition pageNum (q : gmap string JS.qval) : Z :=
  JS.Math_max (parse_or (query_or q "page" "1") 1) 1.

Definition limitNum (q : gmap string JS.qval) : Z :=
  JS.Math_min (JS.Math_max (parse_or (query_or q "limit" "10") 10) 1) 100.

Definition filtered (q : gmap string JS.qval) (products : list Product.t)
  : list Product.t :=
  filter_q (q !! "q") (filter_category (q !! "category") products).

Definition get_products (req : request) (products : list Product.t)
  : result (response * list Product.t) :=
  let results := filtered (query req) products in
  let total := Z.of_nat (length results) in
  let start := (pageNum (query req) - 1) * limitNum (query req) in
  let data := JS.slice results start (start + limitNum (query req)) in
  Ok ({| status := 200;
         content := Envelope (pageNum (query req)) (limitNum (query req))
                      total data |}, products).

(** *** GET /api/products/stats *)

Definition count_step (acc : gmap string JS.value) (p : Product.t)
  : gmap string JS.value :=
  JS.set acc (Product.category p)
    (JS.plus_one (JS.or_zero (JS.get acc (Product.category p)))).

Definition byCategory (products : list Product.t) : gmap string JS.value :=
  fold_left count_step products ∅.

Definition get_stats (products : list Product.t)
  : result (response * list Product.t) :=
  let total := Z.of_nat (length products) in
  let inStock := Z.of_nat (length (List.filter Product.inStock products)) in
  Ok ({| status := 200;
         content := Stats total inStock (byCategory products) |}, products).

(** *** Handlers on one product *)

Definition has_id (i : string) (p : Product.t) : bool :=
  String.eqb (Product.id p) i.

Definition not_found (i : string) : error :=
  NotFoundError ("Product with id '" ++ i ++ "' not found").

Definition get_product (i : string) (products : list Product.t)
  : result (response * list Product.t) :=
  match List.find (has_id i) products with
  | Some p => Ok ({| status := 200; content := ProductJson p |}, products)
  | None => Throw (not_found i)
  end.

(** The record built from the request body: trimmed strings, [inStock]
    defaulting to [true]. *)
Definition build (i : string) (f : fields) : Product.t :=
  Product.mk i (JS.trim (f_name f)) (JS.trim (f_description f)) (f_price f)
    (JS.trim (f_category f)) (default true (f_inStock f)).

(** Reading the body in a handler that runs behind [validateProduct];
    a body the validator would have refused makes [name.trim()] raise. *)
Definition destructure (b : gmap string JS.json) : result fields :=
  match fields_of_body b with
  | Some f => Ok f
  | None => Throw (ForeignError "TypeError" "name.trim is not a function"
                     None false)
  end.

Definition post_product (e : env) (req : request) (b : gmap string JS.json)
    (products : list Product.t) : result (response * list Product.t) :=
  authenticateApiKey e req ;;
  validateProduct b ;;
  f ← destructure b ;
  let newProduct := build (uuid e) f in
  Ok ({| status := 201;
         content := WithMessage "Product created successfully" newProduct |},
      (products ++ [newProduct])%list).

Definition put_product (e : env) (req : request) (b : gmap string JS.json)
    (i : string) (products : list Product.t)
  : result (response * list Product.t) :=
  authenticateApiKey e req ;;
  validateProduct b ;;
  match JS.findIndex (has_id i) products with
  | None => Throw (not_found i)
  | Some productIndex =>
      f ← destructure b ;
      let updatedProduct := build i f in
      Ok ({| status := 200;
             content := WithMessage "Product updated successfully"
                          updatedProduct |},
          JS.set_at products productIndex updatedProduct)
  end.

Definition delete_product (e : env) (req : request) (i : string)
    (products : list Product.t) : result (response * list Product.t) :=
  authenticateApiKey e req ;;
  match JS.findIndex (has_id i) products with
  | None => Throw (not_found i)
  | Some productIndex =>
      match nth_error products productIndex with
      | Some deletedProduct =>
          Ok ({| status := 200;
                 content := WithMessage "Product deleted successfully"
                              deletedProduct |},
              JS.splice1 products productIndex)
      | None => Throw (not_found i)
      end
  end.

(** *** Global error-handling middleware *)

Definition error_json (e : env) (req : request) (name message : string)
    (code : Z) : response :=
  {| status := code;
     content := ErrorJson {| e_name := name; e_message := message;
                             e_statusCode := code; e_timestamp := now e;
                             e_path := url req; e_method := method req |} |}.

Definition is_production (e : env) : bool :=
  match NODE_ENV e with
  | Some v => String.eqb v "production"
  | None => false
  end.

Definition error_handler (e : env) (req : request) (err : error) : response :=
  match err with
  | NotFoundError m => error_json e req "NotFoundError" m 404
  | ValidationError m => error_json e req "ValidationError" m 400
  | AuthenticationError m => error_json e req "AuthenticationError" m 401
  | ForeignError name m st has_body =>
      if String.eqb name "CastError"
      then error_json e req "ValidationError" "Invalid ID format" 400
      else if String.eqb name "SyntaxError"
              && match st with Some c => c =? 400 | None => false end
              && has_body
      then error_json e req "ValidationError"
             "Invalid JSON format in request body" 400
      else error_json e req "InternalServerError"
             (if is_production e then "Something went wrong on our end"
              else m) 500
  end.

(** *** The application: parser, routes in registration order, error
    handler *)

Inductive endpoint :=
| Root | ListProducts | ProductStats | GetProduct
| CreateProduct | UpdateProduct | DeleteProduct.

Definition api_products : list seg := [Lit "api"; Lit "products"].

Definition routes : list (string * list seg * endpoint) :=
  [ ("GET", [], Root);
    ("GET", api_products, ListProducts);
    ("GET", (api_products ++ [Lit "stats"])%list, ProductStats);
    ("GET", (api_products ++ [Param "id"])%list, GetProduct);
    ("POST", api_products, CreateProduct);
    ("PUT", (api_products ++ [Param "id"])%list, UpdateProduct);
    ("DELETE", (api_products ++ [Param "id"])%list, DeleteProduct) ].

Definition run (e : env) (req : request) (b : gmap string JS.json)
    (ep : endpoint) (ps : list (string * string)) (products : list Product.t)
  : result (response * list Product.t) :=
  match ep with
  | Root => Ok ({| status := 200; content := Text "Hello World!" |}, products)
  | ListProducts => get_products req products
  | ProductStats => get_stats products
  | GetProduct => get_product (param ps "id") products
  | CreateProduct => post_product e req b products
  | UpdateProduct => put_product e req b (param ps "id") products
  | DeleteProduct => delete_product e req (param ps "id") products
  end.

(** The error raised by the JSON body parser on unparsable text. *)
Definition body_syntax_error : error :=
  ForeignError "SyntaxError" "Unexpected token in JSON" (Some 400) true.

Definition app (e : env) (req : request) (products : list Product.t)
  : response * list Product.t :=
  match body req with
  | None => (error_handler e req body_syntax_error, products)
  | Some b =>
      match segments (path req) with
      | None => ({| status := 404; content := NoRoute |}, products)
      | Some segs =>
          match dispatch routes (method req) segs with
          | None => ({| status := 404; content := NoRoute |}, products)
          | Some (ep, ps) =>
              match run e req b ep ps products with
              | Ok r => r
              | Throw err => (error_handler e req err, products)
              end
          end
      end
  end.

End Rich.

(** ** The starter in-memory server

  Each middleware answers the request itself; there are no error classes.
  The handlers are modelled as the route table of [server.js] chains
  them. *)

Module Lean.
Import Http.

Definition refuse (code : Z) (msg : string) : option response :=
  Some {| status := code; content := ErrorString msg |}.

(** Validation middleware; [None] is [next()]. *)
Definition validateProduct (b : gmap string JS.json) : option response :=
  let name := b !! "name" in
  let description := b !! "description" in
  let price := b !! "price" in
  let category := b !! "category" in
  let inStock := b !! "inStock" in
  if negb (JS.truthy name) || negb (JS.truthy description)
     || Rich.is_undefined price || negb (JS.truthy category)
  then refuse 400
         "Missing required fields: name, description, price, category are required"
  else if Rich.not_nonempty_string name
  then refuse 400 "name must be a non-empty string"
  else if negb (Rich.is_tag (JS.typeof description) JS.TString)
  then refuse 400 "description must be a string"
  else if Rich.not_nonnegative_number price
  then refuse 400 "price must be a positive number"
  else if Rich.not_nonempty_string category
  then refuse 400 "category must be a non-empty string"
  else if negb (Rich.is_undefined inStock)
          && negb (Rich.is_tag (JS.typeof inStock) JS.TBoolean)
  then refuse 400 "inStock must be a boolean"
  else None.

(** Authentication middleware; [None] is [next()]. *)
Definition authenticateApiKey (e : env) (req : request) : option response :=
  match x_api_key req with
  | None => refuse 401 "API key required in x-api-key header"
  | Some k =>
      if String.eqb k ""
      then refuse 401 "API key required in x-api-key header"
      else if negb (String.eqb k (Rich.expectedApiKey e))
      then refuse 401 "Invalid API key"
      else None
  end.

(** The final error handler of the starter server. *)
Definition error_handler : response :=
  {| status := 500; content := MessageJson "Internal Server Error" |}.

Definition get_products (products : list Product.t)
  : response * list Product.t :=
  ({| status := 200; content := ProductList products |}, products).

Definition get_product (i : string) (products : list Product.t)
  : response * list Product.t :=
  match List.find (Rich.has_id i) products with
  | Some p => ({| status := 200; content := ProductJson p |}, products)
  | None => ({| status := 404; content := ErrorString "Product not found" |},
             products)
  end.

Definition post_product (e : env) (req : request) (b : gmap string JS.json)
    (products : list Product.t) : response * list Product.t :=
  match authenticateApiKey e req with
  | Some r => (r, products)
  | None =>
  match validateProduct b with
  | Some r => (r, products)
  | None =>
  match fields_of_body b with
  | None => (error_handler, products)
  | Some f =>
      let newProduct := Rich.build (uuid e) f in
      ({| status := 201; content := ProductJson newProduct |},
       (products ++ [newProduct])%list)
  end end end.

Definition put_product (e : env) (req : request) (b : gmap string JS.json)
    (i : string) (products : list Product.t) : response * list Product.t :=
  match authenticateApiKey e req with
  | Some r => (r, products)
  | None =>
  match validateProduct b with
  | Some r => (r, products)
  | None =>
  match JS.findIndex (Rich.has_id i) products with
  | None => ({| status := 404; content := ErrorString "Product not found" |},
             products)
  | Some productIndex =>
      match fields_of_body b with
      | None => (error_handler, products)
      | Some f =>
          let updatedProduct := Rich.build i f in
          ({| status := 200; content := ProductJson updatedProduct |},
           JS.set_at products productIndex updatedProduct)
      end
  end end end.

(** DELETE: [splice] takes the record at the index [findIndex] gave, which
    is inside the array. *)
Definition delete_product (e : env) (req : request) (i : string)
    (products : list Product.t) : response * list Product.t :=
  match authenticateApiKey e req with
  | Some r => (r, products)
  | None =>
  match JS.findIndex (Rich.has_id i) products with
  | None => ({| status := 404; content := ErrorString "Product not found" |},
             products)
  | Some productIndex =>
      match nth_error products productIndex with
      | Some deletedProduct =>
          ({| status := 200;
              content := WithMessage "Product deleted successfully"
                           deletedProduct |},
           JS.splice1 products productIndex)
      | None => (error_handler, products)
      end
  end end.

(** *** The application the registrations of [server.js] spell out, read
    as if the two middlewares were declared above the routes: parser,
    routes in registration order, error handler.  As the file stands,
    loading it stops at the first route that names a middleware, so this
    application describes the intent of the file, not a running process.
    The logging middleware is registered after the routes and writes to the
    console only. *)

Inductive endpoint :=
| Root | ListProducts | GetProduct
| CreateProduct | UpdateProduct | DeleteProduct.

Definition routes : list (string * list seg * endpoint) :=
  [ ("GET", [], Root);
    ("GET", Rich.api_products, ListProducts);
    ("GET", (Rich.api_products ++ [Param "id"])%list, GetProduct);
    ("POST", Rich.api_products, CreateProduct);
    ("PUT", (Rich.api_products ++ [Param "id"])%list, UpdateProduct);
    ("DELETE", (Rich.api_products ++ [Param "id"])%list, DeleteProduct) ].

Definition run (e : env) (req : request) (b : gmap string JS.json)
    (ep : endpoint) (ps : list (string * string)) (products : list Product.t)
  : response * list Product.t :=
  match ep with
  | Root => ({| status := 200; content := Text "Hello World!" |}, products)
  | ListProducts => get_products products
  | GetProduct => get_product (param ps "id") products
  | CreateProduct => post_product e req b products
  | UpdateProduct => put_product e req b (param ps "id") products
  | DeleteProduct => delete_product e req (param ps "id") products
  end.

Definition app (e : env) (req : request) (products : list Product.t)
  : response * list Product.t :=
  match body req with
  | None => (error_handler, products)
  | Some b =>
      match segments (path req) with
      | None => ({| status := 404; content := NoRoute |}, products)
      | Some segs =>
          match dispatch routes (method req) segs with
          | None => ({| status := 404; content := NoRoute |}, products)
          | Some (ep, ps) => run e req b ep ps products
          end
      end
  end.

End Lean.

(** ** The Mongoose-backed router

  The collection and the schema types belong to the database library; the
  router sees them through [Product.find], [new Product], [save].  Their
  part is taken as a collaborator: the casts of the schema types and, per
  request, whether the write is accepted. *)

Module Mongo.
Import Http.

Record schema_types := {
  castString : JS.json -> option string;
  castNumber : JS.json -> option Q;
  castBoolean : JS.json -> option bool
}.

(** A schema type leaves a value of its own type as it is. *)
Definition casts_keep_typed (m : schema_types) : Prop :=
  (forall s, castString m (JS.JStr s) = Some s) /\
  (forall q, castNumber m (JS.JNum q) = Some q) /\
  (forall b, castBoolean m (JS.JBool b) = Some b).

(** The casts restricted to values that already have the schema type. *)
Definition typed_only : schema_types :=
  {| castString := fun v => match v with JS.JStr s => Some s | _ => None end;
     castNumber := fun v => match v with JS.JNum q => Some q | _ => None end;
     castBoolean := fun v => match v with JS.JBool b => Some b | _ => None end |}.

(** [!name || !description || !price || !category || inStock === undefined] *)
Definition incomplete (b : gmap string JS.json) : bool :=
  negb (JS.truthy (b !! "name")) || negb (JS.truthy (b !! "description"))
  || negb (JS.truthy (b !! "price")) || negb (JS.truthy (b !! "category"))
  || Rich.is_undefined (b !! "inStock").

(** [new Product({ id, name, description, price, category, inStock })]:
    the fields as given, cast by the schema; [None] when a cast fails,
    which makes [save] reject. *)
Definition document (m : schema_types) (i : string) (b : gmap string JS.json)
  : option Product.t :=
  n ← b !! "name" ≫= castString m ;
  d ← b !! "description" ≫= castString m ;
  p ← b !! "price" ≫= castNumber m ;
  c ← b !! "category" ≫= castString m ;
  s ← b !! "inStock" ≫= castBoolean m ;
  Some (Product.mk i n d p c s).

Definition server_error : response :=
  {| status := 500; content := MessageJson "Server Error" |}.

Definition post_product (m : schema_types) (accepted : bool) (e : env)
    (b : gmap string JS.json) (collection : list Product.t)
  : response * list Product.t :=
  if incomplete b
  then ({| status := 400; content := MessageJson "All fields are required" |},
        collection)
  else match document m (uuid e) b with
       | Some newProduct =>
           if accepted
           then ({| status := 201; content := ProductJson newProduct |},
                 (collection ++ [newProduct])%list)
           else (server_error, collection)
       | None => (server_error, collection)
       end.

Definition put_product (m : schema_types) (accepted : bool)
    (b : gmap string JS.json) (i : string) (collection : list Product.t)
  : response * list Product.t :=
  if incomplete b
  then ({| status := 400; content := MessageJson "All fields are required" |},
        collection)
  else match JS.findIndex (Rich.has_id i) collection with
       | None => ({| status := 404; content := MessageJson "Product not found" |},
                  collection)
       | Some k =>
           match document m i b with
           | Some product =>
               if accepted
               then ({| status := 200; content := ProductJson product |},
                     JS.set_at collection k product)
               else (server_error, collection)
           | None => (server_error, collection)
           end
       end.

End Mongo.

(** ** Vocabulary of the statements *)

Module Sample.
Import Http.

(** A GET request for the list with the given query. *)
Definition list_request (q : gmap string JS.qval) : request :=
  {| method := "GET"; url := "/api/products"; path := "/api/products";
     x_api_key := None; query := q; body := Some ∅ |}.

(** A request that carries the expected API key. *)
Definition keyed (e : env) (m p : string) (b : gmap string JS.json)
  : request :=
  {| method := m; url := p; path := p;
     x_api_key := Some (Rich.expectedApiKey e); query := ∅; body := Some b |}.

Definition env0 : env :=
  {| NODE_ENV := None; API_KEY := None;
     now := "2024-01-01T00:00:00.000Z";
     uuid := "7f9c24e8-3b12-4fef-91a4-0d8a6c1b2e55" |}.

(** A body with the four text and number fields and no [inStock]. *)
Definition body_of (n d : string) (p : Q) (c : string)
  : gmap string JS.json :=
  {[ "name" := JS.JStr n; "description" := JS.JStr d;
     "price" := JS.JNum p; "category" := JS.JStr c ]}.

(** Every field but [price] is as the validator wants it. *)
Definition others_valid (b : gmap string JS.json) : Prop :=
  (exists n, b !! "name" = Some (JS.JStr n) /\ JS.trim n <> "")
  /\ (exists d, b !! "description" = Some (JS.JStr d) /\ d <> "")
  /\ (exists c, b !! "category" = Some (JS.JStr c) /\ JS.trim c <> "")
  /\ (b !! "inStock" = None \/ exists s, b !! "inStock" = Some (JS.JBool s)).

(** The bodies [validateProduct] lets through. *)
Definition acceptable (b : gmap string JS.json) : Prop :=
  others_valid b
  /\ exists p, b !! "price" = Some (JS.JNum p) /\ (0 <= p)%Q.

(** A product given away: price 0, every other field in order. *)
Definition free_sample : gmap string JS.json :=
  <["inStock" := JS.JBool true]>
    (body_of "Free sample" "A product given away" (0 # 1) "promo").

(** A body with a negative price. *)
Definition negative_price : gmap string JS.json :=
  <["inStock" := JS.JBool true]>
    (body_of "Widget" "A widget" (-5 # 1) "tools").

(** A body whose strings carry surrounding blanks. *)
Definition padded : gmap string JS.json :=
  <["inStock" := JS.JBool true]>
    (body_of "  Desk lamp " " Warm light  " (35 # 1) " home ").

(** A replacement record whose body also carries an [id]. *)
Definition tablet_with_id : gmap string JS.json :=
  <["id" := JS.JStr "99"]>
    (body_of "Tablet" "10 inch" (300 # 1) "electronics").

(** A version-4 identifier, as [uuidv4()] returns them. *)
Definition issued_id : string := "7f9c24e8-3b12-4fef-91a4-0d8a6c1b2e55".

(** The record an earlier POST of [free_sample] stored under [issued_id],
    and the store after that POST. *)
Definition issued_record : Product.t :=
  Product.mk issued_id "Free sample" "A product given away" (0 # 1) "promo"
    true.

Definition store_with_issued_id : list Product.t :=
  [laptop; smartphone; coffee_maker; issued_record].

(** An environment in which [uuidv4()] returns [issued_id], an id that is
    in use in [store_with_issued_id]. *)
Definition colliding_env : env :=
  {| NODE_ENV := None; API_KEY := None;
     now := "2024-01-01T00:00:00.000Z"; uuid := issued_id |}.


(** The store a handler leaves behind; a raised error leaves it as it
    was. *)
Definition store_after (r : result (response * list Product.t))
    (products : list Product.t) : list Product.t :=
  match r with
  | Ok (_, products') => products'
  | Throw _ => products
  end.



(** A category whose name every object inherits as a property. *)
Definition blocks_body : gmap string JS.json :=
  body_of "Blocks" "Building blocks" (15 # 1) "constructor".

Definition blocks (i : string) : Product.t :=
  Product.mk i "Blocks" "Building blocks" (15 # 1) "constructor" true.

(** The entry of a category that has [k] records in a table of counts. *)
Definition tally (k : nat) : option JS.value :=
  if (k =? 0)%nat then None else Some (JS.VNum (Z.of_nat k)).

(** [r] is the canonical error response for [name], [message], [code]. *)
Definition normalised (e : env) (req : request) (r : response)
    (name message : string) (code : Z) : Prop :=
  r = {| status := code;
         content := ErrorJson {| e_name := name; e_message := message;
                                 e_statusCode := code; e_timestamp := now e;
                                 e_path := url req; e_method := method req |} |}.

(** An error that is neither of the three classes nor one of the two
    library errors the handler knows by name. *)
Definition unexpected (name : string) (st : option Z) (has_body : bool)
  : Prop :=
  name <> "CastError"
  /\ ~ (name = "SyntaxError" /\ st = Some 400 /\ has_body = true).

(** A GET request for the statistics. *)
Definition stats_request (u : string) (k : option string)
    (q : gmap string JS.qval) (b : option (gmap string JS.json)) : request :=
  {| method := "GET"; url := u; path := "/api/products/stats";
     x_api_key := k; query := q; body := b |}.

(** The number of records of a category. *)
Definition count_category (c : string) (products : list Product.t) : nat :=
  length (List.filter (fun p => String.eqb (Product.category p) c) products).

(** A stored record as the write handlers build it: name and category are
    non-empty and carry no surrounding white space, the description carries
    none either, the price is not negative. *)
Definition record_ok (p : Product.t) : Prop :=
  Product.name p <> "" /\ JS.trim (Product.name p) = Product.name p
  /\ Product.category p <> ""
  /\ JS.trim (Product.category p) = Product.category p
  /\ JS.trim (Product.description p) = Product.description p
  /\ (0 <= Product.price p)%Q.


(** A request for one product. *)
Definition product_request (m x : string) (k : option string)
    (b : gmap string JS.json) : request :=
  {| method := m; url := "/api/products/" ++ x;
     path := "/api/products/" ++ x;
     x_api_key := k; query := ∅; body := Some b |}.

(** The records of the page a list request asks for. *)
Definition page_data (q : gmap string JS.qval) (products : list Product.t)
  : list Product.t :=
  let results := Rich.filtered q products in
  let start := (Rich.pageNum q - 1) * Rich.limitNum q in
  JS.slice results start (start + Rich.limitNum q).

(** The six messages of the validator. *)
Definition validation_messages : list string :=
  [ "Missing required fields: name, description, price, category are required";
    "name must be a non-empty string";
    "description must be a string";
    "price must be a positive number";
    "category must be a non-empty string";
    "inStock must be a boolean" ].

(** What the server answers once a handler returned or raised. *)
Definition answer (e : env) (req : request)
    (r : result (response * list Product.t)) (products : list Product.t)
  : response * list Product.t :=
  match r with
  | Ok x => x
  | Throw err => (Rich.error_handler e req err, products)
  end.

(** A request on the collection path. *)
Definition collection_request (m : string) (k : option string)
    (q : gmap string JS.qval) (b : gmap string JS.json) : request :=
  {| method := m; url := "/api/products"; path := "/api/products";
     x_api_key := k; query := q; body := Some b |}.

End Sample.

(** * Properties *)

(** Case analysis on every test a chain of conditionals performs. *)
Ltac case_ifs :=
  repeat match goal with
         | |- context [if ?c then _ else _] => destruct c
         end.

Ltac case_matches :=
  repeat match goal with
         | |- context [match ?c with _ => _ end] => destruct c
         end.

(** ** Facts about the primitives *)

Section Primitives.





(** For a start inside [0, ∞) and a non-negative count, [slice] is
    "skip [start], then take [n]". *)
Lemma slice_take_drop {A} (l : list A) (start n : Z) :
  0 <= start -> 0 <= n ->
  JS.slice l start (start + n)
  = firstn (Z.to_nat n) (skipn (Z.to_nat start) l).
Proof.
  intros Hs Hn. unfold JS.slice, JS.rel_index.
  destruct (Z.ltb_spec start 0) as [?|_]; [lia|].
  destruct (Z.ltb_spec (start + n) 0) as [?|_]; [lia|].
  destruct (Z_lt_le_dec start (Z.of_nat (length l))) as [Hin|Hout].
  - rewrite (Z.min_l start) by lia.
    destruct (Z_le_gt_dec (start + n) (Z.of_nat (length l))) as [Hfit|Hcut].
    + rewrite Z.min_l by lia. f_equal. lia.
    + rewrite Z.min_r by lia.
      rewrite !firstn_all2; try reflexivity; rewrite length_skipn; lia.
  - rewrite !Z.min_r by lia. rewrite Z.sub_diag. change (Z.to_nat 0) with 0%nat.
    rewrite firstn_O. rewrite (skipn_all2 (n := Z.to_nat start)) by lia.
    now rewrite firstn_nil.
Qed.


End Primitives.

(** ** Listing: filters, pagination, envelope *)

Section Listing.
Import Http Sample.

Lemma pageNum_ge_1 (q : gmap string JS.qval) : 1 <= Rich.pageNum q.
Proof. unfold Rich.pageNum, JS.Math_max. lia. Qed.

Lemma limitNum_bounds (q : gmap string JS.qval) :
  1 <= Rich.limitNum q <= 100.
Proof. unfold Rich.limitNum, JS.Math_min, JS.Math_max. lia. Qed.


End Listing.

(** ** Validation and authentication *)

Section Validation.
Import Http Sample.

Lemma num_lt0_spec (q : Q) : JS.num_lt0 q = true <-> (q < 0)%Q.
Proof.
  unfold JS.num_lt0, Qlt. simpl. rewrite Z.ltb_lt. lia.
Qed.

Lemma num_is_zero_spec (q : Q) : JS.num_is_zero q = true <-> (q == 0)%Q.
Proof.
  unfold JS.num_is_zero, Qeq. simpl. rewrite Z.eqb_eq. lia.
Qed.

Lemma trim_nonempty (s : string) : JS.trim s <> "" -> s <> "".
Proof. intros H ->. apply H. reflexivity. Qed.

Lemma length_zero_iff (s : string) :
  (String.length s =? 0)%nat = true <-> s = "".
Proof.
  destruct s; simpl; split; intros H; try reflexivity; discriminate.
Qed.

Lemma eqb_empty_false (s : string) : s <> "" -> String.eqb s "" = false.
Proof. intros H. now apply String.eqb_neq. Qed.

Lemma not_nonempty_string_false (v : option JS.json) :
  Rich.not_nonempty_string v = false
  <-> exists s, v = Some (JS.JStr s) /\ JS.trim s <> "".
Proof.
  unfold Rich.not_nonempty_string. split.
  - destruct v as [[| | |s| |]|]; try discriminate.
    intros H. exists s. split; [reflexivity|].
    intros E. apply length_zero_iff in E. congruence.
  - intros [s [-> H]].
    destruct (String.length (JS.trim s) =? 0)%nat eqn:E; [|reflexivity].
    apply length_zero_iff in E. contradiction.
Qed.

Lemma not_nonnegative_number_false (v : option JS.json) :
  Rich.not_nonnegative_number v = false
  <-> exists p, v = Some (JS.JNum p) /\ (0 <= p)%Q.
Proof.
  unfold Rich.not_nonnegative_number. split.
  - destruct v as [[| |p| | |]|]; try discriminate.
    intros H. exists p. split; [reflexivity|].
    apply Qnot_lt_le. rewrite <- num_lt0_spec. congruence.
  - intros [p [-> H]].
    destruct (JS.num_lt0 p) eqn:E; [|reflexivity].
    apply num_lt0_spec in E. apply Qlt_not_le in E. contradiction.
Qed.

(** The validator accepts exactly the acceptable bodies. *)
Lemma validateProduct_ok (b : gmap string JS.json) :
  Rich.validateProduct b = Ok tt <-> acceptable b.
Proof.
  unfold Rich.validateProduct, acceptable, others_valid. split.
  - destruct (negb (JS.truthy (b !! "name")) || _ || _ || _) eqn:Hreq;
      [discriminate|].
    apply orb_false_elim in Hreq as [Hreq Hc].
    apply orb_false_elim in Hreq as [Hreq Hp].
    apply orb_false_elim in Hreq as [Hn Hd].
    destruct (Rich.not_nonempty_string (b !! "name")) eqn:Hn'; [discriminate|].
    destruct (b !! "description") as [[| | |d| |]|] eqn:Hd'; try discriminate.
    destruct (Rich.not_nonnegative_number (b !! "price")) eqn:Hp';
      [discriminate|].
    destruct (Rich.not_nonempty_string (b !! "category")) eqn:Hc';
      [discriminate|].
    apply not_nonempty_string_false in Hn', Hc'.
    apply not_nonnegative_number_false in Hp'.
    intros Hs. repeat split; try assumption.
    + exists d. split; [reflexivity|]. intros ->. discriminate.
    + destruct (b !! "inStock") as [[| s | | | |]|]; try discriminate.
      * right. exists s. reflexivity.
      * left. reflexivity.
  - intros [[[n [Hn Hn']] [[d [Hd Hd']] [[c [Hc Hc']] Hs]]] [p [Hp Hp']]].
    assert (Rich.not_nonempty_string (b !! "name") = false) as ->
      by (apply not_nonempty_string_false; eauto).
    assert (Rich.not_nonempty_string (b !! "category") = false) as ->
      by (apply not_nonempty_string_false; eauto).
    assert (Rich.not_nonnegative_number (b !! "price") = false) as ->
      by (apply not_nonnegative_number_false; eauto).
    rewrite Hn, Hd, Hp, Hc. simpl.
    rewrite (eqb_empty_false n) by now apply trim_nonempty.
    rewrite (eqb_empty_false d) by assumption.
    rewrite (eqb_empty_false c) by now apply trim_nonempty.
    simpl. destruct Hs as [-> | [s ->]]; reflexivity.
Qed.

(** The Lean validator takes the same decisions. *)
Lemma lean_validateProduct_agrees (b : gmap string JS.json) :
  Lean.validateProduct b = None <-> Rich.validateProduct b = Ok tt.
Proof.
  unfold Lean.validateProduct, Rich.validateProduct, Lean.refuse.
  case_ifs; split; intros H; first [reflexivity | discriminate].
Qed.

(** A body that passed validation destructures into typed fields. *)
Lemma acceptable_fields (b : gmap string JS.json) :
  acceptable b ->
  exists f, fields_of_body b = Some f
    /\ b !! "name" = Some (JS.JStr (f_name f))
    /\ b !! "description" = Some (JS.JStr (f_description f))
    /\ b !! "price" = Some (JS.JNum (f_price f))
    /\ b !! "category" = Some (JS.JStr (f_category f)).
Proof.
  intros [[[n [Hn _]] [[d [Hd _]] [[c [Hc _]] Hs]]] [p [Hp _]]].
  unfold fields_of_body. rewrite Hn, Hd, Hp, Hc.
  destruct Hs as [-> | [s ->]]; eexists; repeat split; reflexivity.
Qed.

Lemma keyed_authenticates (e : env) (m p : string) (b : gmap string JS.json) :
  Rich.authenticateApiKey e (keyed e m p b) = Ok tt.
Proof.
  unfold Rich.authenticateApiKey, keyed. simpl.
  assert (Rich.expectedApiKey e <> "") as Hne.
  { unfold Rich.expectedApiKey.
    destruct (API_KEY e) as [k|]; [|discriminate].
    destruct (String.eqb_spec k ""); [discriminate | assumption]. }
  rewrite (eqb_empty_false _ Hne). rewrite String.eqb_refl. reflexivity.
Qed.

Lemma lean_authenticate_agrees (e : env) (req : request) :
  Lean.authenticateApiKey e req = None
  <-> Rich.authenticateApiKey e req = Ok tt.
Proof.
  unfold Lean.authenticateApiKey, Rich.authenticateApiKey, Lean.refuse.
  destruct (x_api_key req) as [k|]; [|split; discriminate].
  case_ifs; split; intros H; first [reflexivity | discriminate].
Qed.

End Validation.

(** ** Creating and replacing records *)

Section Writes.
Import Http Sample.

Lemma post_product_accepted (e : env) (req : request)
    (b : gmap string JS.json) (products : list Product.t) :
  Rich.authenticateApiKey e req = Ok tt -> acceptable b ->
  exists f, fields_of_body b = Some f
    /\ Rich.post_product e req b products
       = Ok ({| status := 201;
                content := WithMessage "Product created successfully"
                             (Rich.build (uuid e) f) |},
             (products ++ [Rich.build (uuid e) f])%list)
    /\ Lean.post_product e req b products
       = ({| status := 201; content := ProductJson (Rich.build (uuid e) f) |},
          (products ++ [Rich.build (uuid e) f])%list).
Proof.
  intros Ha Hb.
  destruct (acceptable_fields b Hb) as [f [Hf _]].
  pose proof (proj2 (validateProduct_ok b) Hb) as Hv.
  exists f. split; [exact Hf|]. split.
  - unfold Rich.post_product, Rich.destructure.
    rewrite Ha, Hv, Hf. reflexivity.
  - unfold Lean.post_product.
    rewrite (proj2 (lean_authenticate_agrees e req) Ha).
    rewrite (proj2 (lean_validateProduct_agrees b) Hv), Hf. reflexivity.
Qed.

Lemma findIndex_Some {A} (f : A -> bool) (l : list A) (k : nat) :
  JS.findIndex f l = Some k -> exists x, l !! k = Some x /\ f x = true.
Proof.
  revert k. induction l as [|y l IH]; intros k; simpl; [discriminate|].
  destruct (f y) eqn:Hy.
  - intros [= <-]. exists y. split; [reflexivity | exact Hy].
  - destruct (JS.findIndex f l) as [j|]; simpl; [|discriminate].
    intros [= <-]. destruct (IH j eq_refl) as [x Hx]. exists x. exact Hx.
Qed.

Lemma findIndex_present (i : string) (products : list Product.t) :
  In i (map Product.id products) ->
  exists k, JS.findIndex (Rich.has_id i) products = Some k.
Proof.
  induction products as [|p l IH]; simpl; [contradiction|].
  unfold Rich.has_id at 1.
  destruct (String.eqb_spec (Product.id p) i) as [_|Hne].
  - intros _. exists 0%nat. reflexivity.
  - intros [H|H]; [contradiction|].
    destruct (IH H) as [k ->]. exists (S k). reflexivity.
Qed.

Lemma replace_keeps_ids (products : list Product.t) (k : nat)
    (old new : Product.t) :
  products !! k = Some old -> Product.id new = Product.id old ->
  map Product.id (JS.set_at products k new) = map Product.id products.
Proof.
  intros Hk Hid. unfold JS.set_at.
  change (map Product.id) with (fmap (M := list) Product.id).
  rewrite list_fmap_insert, Hid. apply list_insert_id.
  rewrite list_lookup_fmap, Hk. reflexivity.
Qed.

Lemma put_product_ids (e : env) (req : request) (b : gmap string JS.json)
    (i : string) (products : list Product.t) :
  map Product.id (store_after (Rich.put_product e req b i products) products)
  = map Product.id products
  /\ map Product.id (snd (Lean.put_product e req b i products))
     = map Product.id products.
Proof.
  unfold Rich.put_product, Lean.put_product, Rich.destructure.
  destruct (JS.findIndex (Rich.has_id i) products) as [k|] eqn:Hk.
  - destruct (findIndex_Some _ _ _ Hk) as [old [Hold Hid]].
    apply String.eqb_eq in Hid.
    split.
    + destruct (Rich.authenticateApiKey e req) as [[]|]; [|reflexivity].
      destruct (Rich.validateProduct b) as [[]|]; [|reflexivity].
      destruct (fields_of_body b) as [f|]; [|reflexivity]. simpl.
      now apply (replace_keeps_ids _ _ old).
    + destruct (Lean.authenticateApiKey e req); [reflexivity|].
      destruct (Lean.validateProduct b); [reflexivity|].
      destruct (fields_of_body b) as [f|]; [|reflexivity]. simpl.
      now apply (replace_keeps_ids _ _ old).
  - split.
    + destruct (Rich.authenticateApiKey e req) as [[]|]; [|reflexivity].
      destruct (Rich.validateProduct b) as [[]|]; reflexivity.
    + destruct (Lean.authenticateApiKey e req); [reflexivity|].
      destruct (Lean.validateProduct b); reflexivity.
Qed.

Lemma validateProduct_ignores_id (v : JS.json) (b : gmap string JS.json) :
  Rich.validateProduct (<["id" := v]> b) = Rich.validateProduct b
  /\ Lean.validateProduct (<["id" := v]> b) = Lean.validateProduct b
  /\ fields_of_body (<["id" := v]> b) = fields_of_body b.
Proof.
  unfold Rich.validateProduct, Lean.validateProduct, fields_of_body.
  rewrite !lookup_insert_ne by discriminate. repeat split.
Qed.

Lemma put_product_accepted (e : env) (req : request)
    (b : gmap string JS.json) (i : string) (products : list Product.t) :
  In i (map Product.id products) ->
  Rich.authenticateApiKey e req = Ok tt ->
  acceptable b ->
  exists k f,
    JS.findIndex (Rich.has_id i) products = Some k
    /\ fields_of_body b = Some f
    /\ Rich.put_product e req b i products
       = Ok ({| status := 200;
                content := WithMessage "Product updated successfully"
                             (Rich.build i f) |},
             <[k := Rich.build i f]> products)
    /\ Lean.put_product e req b i products
       = ({| status := 200; content := ProductJson (Rich.build i f) |},
          <[k := Rich.build i f]> products)
    /\ (<[k := Rich.build i f]> products) !! k = Some (Rich.build i f).
Proof.
  intros Hin Ha Hb.
  destruct (findIndex_present i products Hin) as [k Hk].
  destruct (acceptable_fields b Hb) as [f [Hf _]].
  pose proof (proj2 (validateProduct_ok b) Hb) as Hv.
  destruct (findIndex_Some _ _ _ Hk) as [old [Hold _]].
  exists k, f. repeat split; try assumption.
  - unfold Rich.put_product, Rich.destructure.
    rewrite Ha, Hv. simpl. rewrite Hk, Hf. reflexivity.
  - unfold Lean.put_product.
    rewrite (proj2 (lean_authenticate_agrees e req) Ha).
    rewrite (proj2 (lean_validateProduct_agrees b) Hv), Hk, Hf.
    reflexivity.
  - apply list_lookup_insert_eq. now apply lookup_lt_Some in Hold.
Qed.

(** C2: a PUT on an id of the store answers with, and stores at the place
    of the old record, a record whose id is the path parameter; the ids of
    the store are the same before and after every PUT, whatever its
    outcome; an [id] property of the body changes nothing. *)
Theorem put_keeps_path_id (e : env) (req : request)
    (b : gmap string JS.json) (i : string) (products : list Product.t) :
  In i (map Product.id products) ->
  Rich.authenticateApiKey e req = Ok tt ->
  acceptable b ->
  (exists k f,
      JS.findIndex (Rich.has_id i) products = Some k
      /\ fields_of_body b = Some f
      /\ Product.id (Rich.build i f) = i
      /\ Rich.put_product e req b i products
         = Ok ({| status := 200;
                  content := WithMessage "Product updated successfully"
                               (Rich.build i f) |},
               <[k := Rich.build i f]> products)
      /\ Lean.put_product e req b i products
         = ({| status := 200; content := ProductJson (Rich.build i f) |},
            <[k := Rich.build i f]> products)
      /\ (<[k := Rich.build i f]> products) !! k = Some (Rich.build i f))
  /\ map Product.id
       (store_after (Rich.put_product e req b i products) products)
     = map Product.id products
  /\ map Product.id (snd (Lean.put_product e req b i products))
     = map Product.id products
  /\ (forall v,
        Rich.put_product e req (<["id" := v]> b) i products
        = Rich.put_product e req b i products
        /\ Lean.put_product e req (<["id" := v]> b) i products
           = Lean.put_product e req b i products).
Proof.
  intros Hin Ha Hb.
  destruct (put_product_accepted e req b i products Hin Ha Hb)
    as [k [f [Hk [Hf [Hr [Hl Hlook]]]]]].
  split; [|split; [apply put_product_ids | split; [apply put_product_ids |]]].
  - exists k, f. repeat split; assumption.
  - intros v. destruct (validateProduct_ignores_id v b) as [Hr' [Hl' Hfb]].
    unfold Rich.put_product, Lean.put_product, Rich.destructure.
    rewrite Hr', Hl', Hfb. split; reflexivity.
Qed.

(** The seed store, id "2", and a body that carries the id "99". *)
Lemma put_keeps_path_id_witness :
  In "2" (map Product.id seed)
  /\ acceptable tablet_with_id
  /\ exists k f,
       JS.findIndex (Rich.has_id "2") seed = Some k
       /\ fields_of_body tablet_with_id = Some f
       /\ Product.id (Rich.build "2" f) = "2"
       /\ snd (Lean.put_product env0
                 (keyed env0 "PUT" "/api/products/2" tablet_with_id)
                 tablet_with_id "2" seed)
          = <[k := Rich.build "2" f]> seed.
Proof.
  assert (In "2" (map Product.id seed)) as Hin by (simpl; tauto).
  assert (acceptable tablet_with_id) as Hb
    by (apply validateProduct_ok; vm_compute; reflexivity).
  split; [exact Hin|]. split; [exact Hb|].
  destruct (put_keeps_path_id env0
              (keyed env0 "PUT" "/api/products/2" tablet_with_id)
              tablet_with_id "2" seed Hin (keyed_authenticates _ _ _ _) Hb)
    as [[k [f [Hk [Hf [Hid [_ [Hl _]]]]]]] _].
  exists k, f. rewrite Hl. auto.
Defined.

End Writes.

(** ** Price rules, trimming and duplicate ids *)

Section Creation.
Import Http Sample.

(** In the in-memory servers a price of 0 passes, a negative price and a
    missing required field are refused with a validation error. *)
Lemma rich_price_rules (b : gmap string JS.json) :
  (forall p, others_valid b -> b !! "price" = Some (JS.JNum p) ->
     (p == 0)%Q -> Rich.validateProduct b = Ok tt)
  /\ (forall p, b !! "price" = Some (JS.JNum p) -> (p < 0)%Q ->
       exists msg, Rich.validateProduct b = Throw (ValidationError msg))
  /\ (b !! "name" = None \/ b !! "description" = None
      \/ b !! "price" = None \/ b !! "category" = None ->
      Rich.validateProduct b
      = Throw (ValidationError
          "Missing required fields: name, description, price, category are required")).
Proof.
  split; [|split].
  - intros p Ho Hp Hz. apply validateProduct_ok. split; [exact Ho|].
    exists p. split; [exact Hp|]. rewrite Hz. apply Qle_refl.
  - intros p Hp Hneg.
    destruct (Rich.validateProduct b) as [[]|[m|m|m|n m st hb]] eqn:Hv.
    + apply validateProduct_ok in Hv as [_ [p' [Hp' Hge]]].
      rewrite Hp in Hp'. injection Hp' as <-.
      apply Qlt_not_le in Hneg. contradiction.
    + revert Hv. unfold Rich.validateProduct.
      case_ifs; discriminate.
    + exists m. reflexivity.
    + revert Hv. unfold Rich.validateProduct.
      case_ifs; discriminate.
    + revert Hv. unfold Rich.validateProduct.
      case_ifs; discriminate.
  - unfold Rich.validateProduct.
    intros [-> | [-> | [-> | ->]]]; simpl;
      rewrite ?orb_true_r; reflexivity.
Qed.

(** A validation error leaves the application as a 400 response. *)
Lemma validation_error_is_400 (e : env) (req : request) (msg : string) :
  status (Rich.error_handler e req (ValidationError msg)) = 400.
Proof. reflexivity. Qed.

(** C1: evaluation of the three POST handlers on a body whose price is 0
    and on a body whose price is -5.  The in-memory server creates the
    first and refuses the second; the Mongoose router answers 400 "All
    fields are required" to the first, since [!price] holds for 0, and
    creates the second. *)
Theorem mongo_post_treats_zero_price_as_missing
    (m : Mongo.schema_types) (accepted : bool) (e : env)
    (products : list Product.t) :
  acceptable free_sample
  /\ Rich.post_product e (keyed e "POST" "/api/products" free_sample)
       free_sample products
     = Ok ({| status := 201;
              content := WithMessage "Product created successfully"
                (Product.mk (uuid e) "Free sample" "A product given away"
                   (0 # 1) "promo" true) |},
           (products ++ [Product.mk (uuid e) "Free sample"
                           "A product given away" (0 # 1) "promo" true])%list)
  /\ Mongo.post_product m accepted e free_sample products
     = ({| status := 400; content := MessageJson "All fields are required" |},
        products)
  /\ Rich.validateProduct negative_price
     = Throw (ValidationError "price must be a positive number")
  /\ Mongo.post_product Mongo.typed_only true e negative_price products
     = ({| status := 201;
           content := ProductJson
             (Product.mk (uuid e) "Widget" "A widget" (-5 # 1) "tools" true) |},
        (products ++ [Product.mk (uuid e) "Widget" "A widget" (-5 # 1)
                        "tools" true])%list).
Proof.
  assert (acceptable free_sample) as Hb
    by (apply validateProduct_ok; vm_compute; reflexivity).
  split; [exact Hb|]. split; [|split; [|split]].
  - destruct (post_product_accepted e _ free_sample products
                (keyed_authenticates e "POST" "/api/products" free_sample) Hb)
      as [f [Hf [-> _]]].
    vm_compute in Hf. injection Hf as <-. reflexivity.
  - reflexivity.
  - vm_compute. reflexivity.
  - reflexivity.
Qed.

(** Every record the in-memory servers store on POST or PUT carries the
    trimmed strings of the body. *)
Lemma in_memory_writes_trim (e : env) (req : request)
    (b : gmap string JS.json) (i : string) (products : list Product.t) :
  Rich.authenticateApiKey e req = Ok tt -> acceptable b ->
  In i (map Product.id products) ->
  exists n d c k stored replaced,
    b !! "name" = Some (JS.JStr n)
    /\ b !! "description" = Some (JS.JStr d)
    /\ b !! "category" = Some (JS.JStr c)
    /\ store_after (Rich.post_product e req b products) products
       = (products ++ [stored])%list
    /\ snd (Lean.post_product e req b products) = (products ++ [stored])%list
    /\ store_after (Rich.put_product e req b i products) products
       = <[k := replaced]> products
    /\ snd (Lean.put_product e req b i products) = <[k := replaced]> products
    /\ (<[k := replaced]> products) !! k = Some replaced
    /\ Product.name stored = JS.trim n
    /\ Product.description stored = JS.trim d
    /\ Product.category stored = JS.trim c
    /\ Product.name replaced = JS.trim n
    /\ Product.description replaced = JS.trim d
    /\ Product.category replaced = JS.trim c.
Proof.
  intros Ha Hb Hin.
  destruct (acceptable_fields b Hb) as [f [Hf [Hn [Hd [_ Hc]]]]].
  destruct (post_product_accepted e req b products Ha Hb)
    as [f' [Hf' [Hpost Hlpost]]].
  rewrite Hf in Hf'. injection Hf' as <-.
  destruct (put_product_accepted e req b i products Hin Ha Hb)
    as [k [f' [_ [Hf' [Hput [Hlput Hlook]]]]]].
  rewrite Hf in Hf'. injection Hf' as <-.
  exists (f_name f), (f_description f), (f_category f), k,
    (Rich.build (uuid e) f), (Rich.build i f).
  rewrite Hpost, Hlpost, Hput, Hlput. simpl. repeat split; assumption.
Qed.

Lemma typed_only_keeps_typed : Mongo.casts_keep_typed Mongo.typed_only.
Proof. repeat split. Qed.

(** With schema types that leave typed values alone, the Mongoose router
    stores the strings of a complete body as they were sent, on POST and
    on PUT. *)
Lemma mongo_writes_keep_strings (m : Mongo.schema_types) (e : env)
    (b : gmap string JS.json) (n d c : string) (p : Q) (s : bool)
    (i : string) (k : nat) (products : list Product.t) :
  Mongo.casts_keep_typed m ->
  Mongo.incomplete b = false ->
  b !! "name" = Some (JS.JStr n) ->
  b !! "description" = Some (JS.JStr d) ->
  b !! "price" = Some (JS.JNum p) ->
  b !! "category" = Some (JS.JStr c) ->
  b !! "inStock" = Some (JS.JBool s) ->
  JS.findIndex (Rich.has_id i) products = Some k ->
  Mongo.post_product m true e b products
  = ({| status := 201;
        content := ProductJson (Product.mk (uuid e) n d p c s) |},
     (products ++ [Product.mk (uuid e) n d p c s])%list)
  /\ Mongo.put_product m true b i products
     = ({| status := 200; content := ProductJson (Product.mk i n d p c s) |},
        <[k := Product.mk i n d p c s]> products).
Proof.
  intros [Hs [Hq Hb]] Hinc Hn Hd Hp Hc Hst Hk.
  unfold Mongo.post_product, Mongo.put_product, Mongo.document.
  rewrite Hinc, Hk, Hn, Hd, Hp, Hc, Hst. simpl.
  rewrite !Hs, Hq, Hb. split; reflexivity.
Qed.

(** C7: evaluation of the POST handlers on a body whose strings carry
    surrounding blanks.  The in-memory server stores the trimmed strings;
    the Mongoose router stores them as received. *)
Theorem mongo_post_stores_untrimmed (e : env) (products : list Product.t) :
  store_after
    (Rich.post_product e (keyed e "POST" "/api/products" padded) padded
       products) products
  = (products ++ [Product.mk (uuid e) "Desk lamp" "Warm light" (35 # 1)
                    "home" true])%list
  /\ Mongo.post_product Mongo.typed_only true e padded products
     = ({| status := 201;
           content := ProductJson
             (Product.mk (uuid e) "  Desk lamp " " Warm light  " (35 # 1)
                " home " true) |},
        (products ++ [Product.mk (uuid e) "  Desk lamp " " Warm light  "
                        (35 # 1) " home " true])%list)
  /\ JS.trim "  Desk lamp " <> "  Desk lamp ".
Proof.
  split; [|split].
  - assert (acceptable padded) as Hb
      by (apply validateProduct_ok; vm_compute; reflexivity).
    destruct (post_product_accepted e _ padded products
                (keyed_authenticates e "POST" "/api/products" padded) Hb)
      as [f [Hf [-> _]]].
    vm_compute in Hf. injection Hf as <-. reflexivity.
  - reflexivity.
  - vm_compute. discriminate.
Qed.

(** C9, as stated, fails: the store holds a record under a version-4 id
    that an earlier POST stored; when the generator returns that id again,
    POST answers 201 and the store holds two records with the id. *)
Lemma duplicate_id_is_appended :
  String.length (uuid colliding_env) = 36%nat
  /\ Rich.post_product colliding_env
       (keyed colliding_env "POST" "/api/products" free_sample)
       free_sample seed
     = Ok ({| status := 201;
              content := WithMessage "Product created successfully"
                           issued_record |}, store_with_issued_id)
  /\ In (uuid colliding_env) (map Product.id store_with_issued_id)
  /\ Rich.post_product colliding_env
       (keyed colliding_env "POST" "/api/products" blocks_body)
       blocks_body store_with_issued_id
     = Ok ({| status := 201;
              content := WithMessage "Product created successfully"
                           (blocks issued_id) |},
           [laptop; smartphone; coffee_maker; issued_record;
            blocks issued_id])
  /\ snd (Lean.post_product colliding_env
            (keyed colliding_env "POST" "/api/products" blocks_body)
            blocks_body store_with_issued_id)
     = [laptop; smartphone; coffee_maker; issued_record; blocks issued_id]
  /\ Product.id issued_record = Product.id (blocks issued_id)
  /\ (forall err,
        Rich.post_product colliding_env
          (keyed colliding_env "POST" "/api/products" blocks_body)
          blocks_body store_with_issued_id <> Throw err)
  /\ store_after
       (Rich.post_product colliding_env
          (keyed colliding_env "POST" "/api/products" blocks_body)
          blocks_body store_with_issued_id) store_with_issued_id
     <> store_with_issued_id.
Proof.
  split; [reflexivity|].
  split; [vm_compute; reflexivity|].
  split; [simpl; tauto|].
  split; [vm_compute; reflexivity|].
  split; [vm_compute; reflexivity|].
  split; [reflexivity|].
  split; [intros err|]; vm_compute; discriminate.
Qed.

(** C9, amended: an authenticated POST with an acceptable body always
    answers 201 and appends the new record, under the generated id, at the
    end of the store, whether or not that id is already in use; no
    handler raises a conflict. *)
Theorem post_always_appends (e : env) (req : request)
    (b : gmap string JS.json) (products : list Product.t) :
  Rich.authenticateApiKey e req = Ok tt -> acceptable b ->
  exists f, fields_of_body b = Some f
    /\ Rich.post_product e req b products
       = Ok ({| status := 201;
                content := WithMessage "Product created successfully"
                             (Rich.build (uuid e) f) |},
             (products ++ [Rich.build (uuid e) f])%list)
    /\ Lean.post_product e req b products
       = ({| status := 201; content := ProductJson (Rich.build (uuid e) f) |},
          (products ++ [Rich.build (uuid e) f])%list)
    /\ Product.id (Rich.build (uuid e) f) = uuid e
    /\ length (products ++ [Rich.build (uuid e) f])%list
       = S (length products).
Proof.
  intros Ha Hb.
  destruct (post_product_accepted e req b products Ha Hb) as [f [Hf [Hr Hl]]].
  exists f. repeat split; try assumption.
  rewrite length_app. simpl. lia.
Qed.

(** A store that holds a version-4 id and a generator that returns it
    again. *)
Lemma post_always_appends_witness :
  In (uuid colliding_env) (map Product.id store_with_issued_id)
  /\ acceptable blocks_body
  /\ exists f,
       Rich.post_product colliding_env
         (keyed colliding_env "POST" "/api/products" blocks_body)
         blocks_body store_with_issued_id
       = Ok ({| status := 201;
                content := WithMessage "Product created successfully"
                             (Rich.build issued_id f) |},
             (store_with_issued_id ++ [Rich.build issued_id f])%list).
Proof.
  assert (acceptable blocks_body) as Hb
    by (apply validateProduct_ok; vm_compute; reflexivity).
  split; [simpl; tauto|]. split; [exact Hb|].
  destruct (post_always_appends colliding_env
              (keyed colliding_env "POST" "/api/products" blocks_body)
              blocks_body store_with_issued_id
              (keyed_authenticates _ _ _ _) Hb)
    as [f [_ [Hr _]]].
  exists f. exact Hr.
Defined.

End Creation.

(** ** Filters of the list query *)

Section Filters.
Import Http Sample.







End Filters.

(** ** The envelope of the list answer *)

Section Envelope.
Import Http Sample.



End Envelope.

(** ** Statistics *)

Section Statistics.
Import Http Sample.

Lemma count_category_cons (c : string) (p : Product.t)
    (l : list Product.t) :
  count_category c (p :: l)
  = ((if String.eqb (Product.category p) c then 1 else 0)
     + count_category c l)%nat.
Proof.
  unfold count_category. simpl.
  destruct (String.eqb (Product.category p) c); reflexivity.
Qed.

Lemma or_zero_tally (k : nat) :
  JS.or_zero (tally k) = JS.VNum (Z.of_nat k).
Proof.
  unfold tally. destruct k as [|k]; [reflexivity|].
  cbn [Nat.eqb JS.or_zero JS.value_truthy].
  destruct (Z.eqb_spec (Z.of_nat (S k)) 0); [lia | reflexivity].
Qed.

Lemma count_step_lookup (acc : gmap string JS.value) (p : Product.t)
    (n : string -> nat) :
  JS.Object_prototype (Product.category p) = None ->
  (forall c, acc !! c = tally (n c)) ->
  forall c, Rich.count_step acc p !! c
    = tally (n c + if String.eqb (Product.category p) c then 1 else 0).
Proof.
  intros Hown Hacc c. unfold Rich.count_step, JS.set, JS.get.
  destruct (String.eqb_spec (Product.category p) "__proto__") as [E|_].
  { rewrite E in Hown. discriminate. }
  rewrite Hacc.
  replace (match tally (n (Product.category p)) with
           | Some v => Some v
           | None => JS.Object_prototype (Product.category p)
           end) with (tally (n (Product.category p)))
    by (rewrite Hown; now destruct (tally _)).
  rewrite or_zero_tally. cbn [JS.plus_one].
  destruct (String.eqb_spec (Product.category p) c) as [<-|Hne].
  - rewrite lookup_insert_eq. unfold tally.
    replace (n (Product.category p) + 1 =? 0)%nat with false
      by (symmetry; apply Nat.eqb_neq; lia).
    do 2 f_equal. lia.
  - rewrite lookup_insert_ne by assumption.
    rewrite Hacc. f_equal. lia.
Qed.

Lemma fold_count_step (l : list Product.t) :
  forall (acc : gmap string JS.value) (n : string -> nat),
    Forall (fun p => JS.Object_prototype (Product.category p) = None) l ->
    (forall c, acc !! c = tally (n c)) ->
    forall c, fold_left Rich.count_step l acc !! c
              = tally (n c + count_category c l).
Proof.
  induction l as [|p l IH]; intros acc n Hown Hacc c; simpl.
  - rewrite Hacc. f_equal. unfold count_category. simpl. lia.
  - inversion Hown as [|? ? Hp Hl]; subst.
    rewrite (IH _ (fun c => n c + if String.eqb (Product.category p) c
                                  then 1 else 0)%nat Hl
               (count_step_lookup acc p n Hp Hacc)).
    rewrite count_category_cons. f_equal. lia.
Qed.

(** On a store none of whose categories is the name of an inherited
    property, the statistics are the three counts; the seed store gives
    [{total: 3, inStock: 2, byCategory: {electronics: 2, kitchen: 1}}]. *)
Lemma stats_counts (products : list Product.t) :
  (Forall (fun p => JS.Object_prototype (Product.category p) = None)
     products ->
   exists by_category,
     Rich.get_stats products
     = Ok ({| status := 200;
              content := Stats (Z.of_nat (length products))
                (Z.of_nat (length (List.filter Product.inStock products)))
                by_category |}, products)
     /\ forall c, by_category !! c = tally (count_category c products))
  /\ Rich.get_stats seed
     = Ok ({| status := 200;
              content := Stats 3 2 {[ "electronics" := JS.VNum 2;
                                      "kitchen" := JS.VNum 1 ]} |}, seed).
Proof.
  split.
  - intros Hown. exists (Rich.byCategory products). split; [reflexivity|].
    intros c. unfold Rich.byCategory.
    apply (fold_count_step products ∅ (fun _ => 0%nat) Hown).
    intros c'. apply lookup_empty.
  - unfold Rich.get_stats.
    replace (Rich.byCategory seed)
      with ({[ "electronics" := JS.VNum 2; "kitchen" := JS.VNum 1 ]}
            : gmap string JS.value); [reflexivity|].
    apply map_eq. intros c. symmetry.
    unfold Rich.byCategory.
    rewrite (fold_count_step seed ∅ (fun _ => 0%nat));
      [| repeat constructor | intros c'; apply lookup_empty].
    unfold seed. rewrite !count_category_cons.
    change (Product.category laptop) with "electronics".
    change (Product.category smartphone) with "electronics".
    change (Product.category coffee_maker) with "kitchen".
    change (count_category c []) with 0%nat.
    destruct (String.eqb_spec "electronics" c) as [<-|He]; [reflexivity|].
    destruct (String.eqb_spec "kitchen" c) as [<-|Hk]; [reflexivity|].
    rewrite lookup_insert_ne by assumption.
    rewrite lookup_singleton_ne by assumption. reflexivity.
Qed.

(** C6: evaluation of the statistics after a product of category
    "constructor" has been created.  The lookup [acc[p.category]] finds
    the inherited function, [|| 0] keeps it, [+ 1] turns it into a string:
    the entry of the category is that string, though the store holds one
    such record. *)
Theorem stats_inherited_name_category (e : env) :
  let store := (seed ++ [blocks (uuid e)])%list in
  acceptable blocks_body
  /\ Rich.post_product e (keyed e "POST" "/api/products" blocks_body)
       blocks_body seed
     = Ok ({| status := 201;
              content := WithMessage "Product created successfully"
                           (blocks (uuid e)) |}, store)
  /\ count_category "constructor" store = 1%nat
  /\ (exists by_category,
        Rich.get_stats store
        = Ok ({| status := 200; content := Stats 4 3 by_category |}, store)
        /\ by_category !! "constructor"
           = Some (JS.VStr "function Object() { [native code] }1")
        /\ by_category !! "electronics" = Some (JS.VNum 2)
        /\ by_category !! "kitchen" = Some (JS.VNum 1)).
Proof.
  intros store.
  assert (acceptable blocks_body) as Hb
    by (apply validateProduct_ok; vm_compute; reflexivity).
  split; [exact Hb|]. split; [|split].
  - destruct (post_product_accepted e _ blocks_body seed
                (keyed_authenticates e "POST" "/api/products" blocks_body) Hb)
      as [f [Hf [-> _]]].
    vm_compute in Hf. injection Hf as <-. reflexivity.
  - reflexivity.
  - exists (Rich.byCategory store). split; [reflexivity|].
    repeat split; vm_compute; reflexivity.
Qed.

End Statistics.

(** ** Error responses *)

Section Errors.
Import Http Sample.

Lemma error_handler_normalised (e : env) (req : request) (err : error) :
  exists name message code,
    normalised e req (Rich.error_handler e req err) name message code
    /\ (code = 400 \/ code = 401 \/ code = 404 \/ code = 500).
Proof.
  unfold normalised.
  destruct err as [m|m|m|n m st hb]; simpl;
    case_ifs;
    do 3 eexists; (split; [reflexivity|]); lia.
Qed.

Lemma handlers_succeed_2xx (e : env) (req : request)
    (b : gmap string JS.json) (ep : Rich.endpoint)
    (ps : list (string * string)) (products products' : list Product.t)
    (r : response) :
  Rich.run e req b ep ps products = Ok (r, products') ->
  status r = 200 \/ status r = 201.
Proof.
  destruct ep; simpl;
    unfold Rich.get_products, Rich.get_stats, Rich.get_product,
      Rich.post_product, Rich.put_product, Rich.delete_product,
      Rich.destructure, mbind, result_bind;
    case_matches;
    intros H; try discriminate; injection H as <- _; simpl; lia.
Qed.

(** C8, as stated, fails twice: the starter server answers an unknown id
    with [{ error: 'Product not found' }], a bare string under [error];
    and the error handler of the other server maps an error named
    [CastError] to 400, not to 500. *)
Lemma failure_shapes_differ :
  fst (Lean.get_product "999" seed)
  = {| status := 404; content := ErrorString "Product not found" |}
  /\ (forall eb, content (fst (Lean.get_product "999" seed)) <> ErrorJson eb)
  /\ Lean.error_handler
     = {| status := 500; content := MessageJson "Internal Server Error" |}
  /\ status (Rich.error_handler env0 (list_request ∅)
               (ForeignError "CastError" "Cast to Number failed" None false))
     = 400
  /\ status (Rich.error_handler env0 (list_request ∅)
               (ForeignError "CastError" "Cast to Number failed" None false))
     <> 500.
Proof.
  split; [reflexivity|]. split; [intros eb; simpl; discriminate|].
  split; [reflexivity|]. split; [reflexivity | simpl; discriminate].
Qed.

(** C8, amended: in the server with the error classes every error handed
    to the error handler is answered with
    [{ error: { name, message, statusCode, timestamp, path, method } }]
    under the status in [statusCode]: 404, 400 and 401 with the error's
    own message for the three classes, 400 for an error named [CastError]
    and for the body parser's syntax error, 500 for anything else, whose
    message is the generic one in production and the error's own
    otherwise.  Every response of that server is a 200 or 201, the
    framework's answer to an unrouted request, or such an error
    response; unparsable JSON is answered 400. *)
Theorem error_normalizer (e : env) (req : request)
    (products : list Product.t) :
  (forall m, normalised e req (Rich.error_handler e req (NotFoundError m))
               "NotFoundError" m 404)
  /\ (forall m, normalised e req (Rich.error_handler e req (ValidationError m))
                  "ValidationError" m 400)
  /\ (forall m,
        normalised e req (Rich.error_handler e req (AuthenticationError m))
          "AuthenticationError" m 401)
  /\ (forall m st hb,
        normalised e req
          (Rich.error_handler e req (ForeignError "CastError" m st hb))
          "ValidationError" "Invalid ID format" 400)
  /\ (forall m,
        normalised e req
          (Rich.error_handler e req (ForeignError "SyntaxError" m (Some 400) true))
          "ValidationError" "Invalid JSON format in request body" 400)
  /\ (forall n m st hb, unexpected n st hb ->
        NODE_ENV e = Some "production" ->
        normalised e req (Rich.error_handler e req (ForeignError n m st hb))
          "InternalServerError" "Something went wrong on our end" 500)
  /\ (forall n m st hb, unexpected n st hb ->
        NODE_ENV e <> Some "production" ->
        normalised e req (Rich.error_handler e req (ForeignError n m st hb))
          "InternalServerError" m 500)
  /\ (body req = None ->
      normalised e req (fst (Rich.app e req products))
        "ValidationError" "Invalid JSON format in request body" 400)
  /\ (status (fst (Rich.app e req products)) = 200
      \/ status (fst (Rich.app e req products)) = 201
      \/ fst (Rich.app e req products) = {| status := 404; content := NoRoute |}
      \/ exists name message code,
           normalised e req (fst (Rich.app e req products)) name message code
           /\ (code = 400 \/ code = 401 \/ code = 404 \/ code = 500)).
Proof.
  assert (forall n m st hb, unexpected n st hb ->
            Rich.error_handler e req (ForeignError n m st hb)
            = Rich.error_json e req "InternalServerError"
                (if Rich.is_production e
                 then "Something went wrong on our end" else m) 500) as Hun.
  { intros n m st hb [Hcast Hsyn]. simpl.
    destruct (String.eqb_spec n "CastError") as [?|_]; [contradiction|].
    destruct (String.eqb_spec n "SyntaxError") as [Hn|_]; [|reflexivity].
    destruct st as [c|]; [|reflexivity].
    destruct (Z.eqb_spec c 400) as [->|_]; [|reflexivity].
    destruct hb; [|reflexivity]. exfalso. apply Hsyn. auto. }
  repeat apply conj; try (intros; reflexivity).
  - intros n m st hb Hu Hprod. rewrite (Hun n m st hb Hu).
    unfold Rich.is_production. rewrite Hprod. reflexivity.
  - intros n m st hb Hu Hprod. rewrite (Hun n m st hb Hu).
    unfold Rich.is_production.
    destruct (NODE_ENV e) as [v|]; [|reflexivity].
    destruct (String.eqb_spec v "production") as [->|_];
      [contradiction | reflexivity].
  - intros Hbody. unfold Rich.app. rewrite Hbody. reflexivity.
  - unfold Rich.app.
    destruct (body req) as [b|];
      [|right; right; right; apply error_handler_normalised].
    destruct (segments (path req)) as [segs|]; [|auto].
    destruct (dispatch Rich.routes (method req) segs) as [[ep ps]|]; [|auto].
    destruct (Rich.run e req b ep ps products) as [[r products']|err] eqn:Hrun.
    + destruct (handlers_succeed_2xx _ _ _ _ _ _ _ _ Hrun); auto.
    + right; right; right. apply error_handler_normalised.
Qed.

End Errors.

(** ** Route order *)

Section Routing.
Import Http Sample.

(** C10: a GET of [/api/products/stats] reaches the statistics handler,
    the first route in registration order that matches, and is answered
    200 with the statistics of the store; the pattern with the [:id]
    parameter, registered after it, would match the same path with
    [id = "stats"].  The path is never answered 404. *)
Theorem stats_route_registered_first (e : env) (u : string)
    (k : option string) (q : gmap string JS.qval)
    (b : gmap string JS.json) (products : list Product.t) :
  segments "/api/products/stats" = Some ["api"; "products"; "stats"]
  /\ dispatch Rich.routes "GET" ["api"; "products"; "stats"]
     = Some (Rich.ProductStats, [])
  /\ match_pattern (Rich.api_products ++ [Param "id"])%list
       ["api"; "products"; "stats"] = Some [("id", "stats")]
  /\ Rich.app e (stats_request u k q (Some b)) products
     = ({| status := 200;
           content := Stats (Z.of_nat (length products))
             (Z.of_nat (length (List.filter Product.inStock products)))
             (Rich.byCategory products) |}, products)
  /\ status (fst (Rich.app e (stats_request u k q (Some b)) products)) <> 404
  /\ status (fst (Rich.app e (stats_request u k q None) products)) <> 404.
Proof.
  repeat apply conj; try reflexivity; simpl; discriminate.
Qed.

End Routing.

(** * Further properties of the handlers *)

(** ** Authentication *)

Section Authentication.
Import Http Sample.

Lemma expectedApiKey_nonempty (e : env) : Rich.expectedApiKey e <> "".
Proof.
  unfold Rich.expectedApiKey.
  destruct (API_KEY e) as [k|]; [|discriminate].
  destruct (String.eqb_spec k ""); [discriminate | assumption].
Qed.

Lemma authenticate_ok_iff (e : env) (req : request) :
  Rich.authenticateApiKey e req = Ok tt
  <-> x_api_key req = Some (Rich.expectedApiKey e).
Proof.
  unfold Rich.authenticateApiKey.
  pose proof (expectedApiKey_nonempty e) as Hne.
  destruct (x_api_key req) as [k|]; [|split; discriminate].
  destruct (String.eqb_spec k "") as [->|Hk].
  - split; [discriminate | intros [= H]; congruence].
  - destruct (String.eqb_spec k (Rich.expectedApiKey e)) as [->|Hx]; simpl.
    + split; reflexivity.
    + split; [discriminate | intros [= H]; contradiction].
Qed.

(** The API-key check passes exactly when the header equals the expected
    key, which is the configured one or, when that is unset or empty, the
    built-in default, and is never empty; a missing or empty header and a
    wrong key are refused as authentication errors with their own
    messages.  The starter server decides alike. *)
Theorem authenticate_decision (e : env) (req : request) :
  (Rich.authenticateApiKey e req = Ok tt
   <-> x_api_key req = Some (Rich.expectedApiKey e))
  /\ (Lean.authenticateApiKey e req = None
      <-> x_api_key req = Some (Rich.expectedApiKey e))
  /\ (x_api_key req = None \/ x_api_key req = Some "" ->
      Rich.authenticateApiKey e req
      = Throw (AuthenticationError "API key required in x-api-key header"))
  /\ (forall k, x_api_key req = Some k -> k <> "" ->
        k <> Rich.expectedApiKey e ->
        Rich.authenticateApiKey e req
        = Throw (AuthenticationError "Invalid API key"))
  /\ Rich.expectedApiKey e <> ""
  /\ (API_KEY e = None \/ API_KEY e = Some "" ->
      Rich.expectedApiKey e = "your-secret-api-key")
  /\ (forall k, API_KEY e = Some k -> k <> "" -> Rich.expectedApiKey e = k).
Proof.
  split; [apply authenticate_ok_iff|].
  split; [rewrite lean_authenticate_agrees; apply authenticate_ok_iff|].
  split; [|split; [|split; [apply expectedApiKey_nonempty|split]]].
  - unfold Rich.authenticateApiKey. intros [-> | ->]; reflexivity.
  - intros k Hk Hne Hx. unfold Rich.authenticateApiKey. rewrite Hk.
    rewrite (eqb_empty_false k Hne).
    destruct (String.eqb_spec k (Rich.expectedApiKey e)); [contradiction|].
    reflexivity.
  - unfold Rich.expectedApiKey. intros [-> | ->]; reflexivity.
  - intros k Hk Hne. unfold Rich.expectedApiKey. rewrite Hk.
    now rewrite (eqb_empty_false k Hne).
Qed.

Lemma authenticate_throws (e : env) (req : request) :
  x_api_key req <> Some (Rich.expectedApiKey e) ->
  exists msg, Rich.authenticateApiKey e req = Throw (AuthenticationError msg).
Proof.
  intros Hk. destruct (Rich.authenticateApiKey e req) as [[]|err] eqn:Ha.
  - apply authenticate_ok_iff in Ha. contradiction.
  - revert Ha. unfold Rich.authenticateApiKey.
    destruct (x_api_key req) as [k|]; case_ifs; intros [= <-]; eauto.
Qed.

(** Without the expected key no write handler gets as far as the body or
    the store: POST, PUT and DELETE raise the authentication error whatever
    the body and the id are, and the error handler answers 401. *)
Theorem writes_need_the_key (e : env) (req : request)
    (b : gmap string JS.json) (i : string) (products : list Product.t) :
  x_api_key req <> Some (Rich.expectedApiKey e) ->
  exists msg,
    Rich.post_product e req b products = Throw (AuthenticationError msg)
    /\ Rich.put_product e req b i products = Throw (AuthenticationError msg)
    /\ Rich.delete_product e req i products = Throw (AuthenticationError msg)
    /\ status (Rich.error_handler e req (AuthenticationError msg)) = 401
    /\ snd (Lean.post_product e req b products) = products
    /\ snd (Lean.put_product e req b i products) = products
    /\ snd (Lean.delete_product e req i products) = products
    /\ status (fst (Lean.post_product e req b products)) = 401
    /\ status (fst (Lean.put_product e req b i products)) = 401
    /\ status (fst (Lean.delete_product e req i products)) = 401.
Proof.
  intros Hk. destruct (authenticate_throws e req Hk) as [msg Ha].
  exists msg.
  unfold Rich.post_product, Rich.put_product, Rich.delete_product.
  rewrite Ha. repeat split.
  all: unfold Lean.post_product, Lean.put_product, Lean.delete_product.
  all: destruct (Lean.authenticateApiKey e req) as [r|] eqn:Hl;
    [|apply lean_authenticate_agrees, authenticate_ok_iff in Hl; contradiction].
  all: try reflexivity.
  all: revert Hl; unfold Lean.authenticateApiKey, Lean.refuse;
    destruct (x_api_key req) as [k|]; case_ifs; intros [= <-]; reflexivity.
Qed.

Lemma writes_need_the_key_witness :
  exists msg,
    Rich.delete_product env0 (list_request ∅) "1" seed
    = Throw (AuthenticationError msg).
Proof.
  assert (x_api_key (list_request ∅) <> Some (Rich.expectedApiKey env0)) as Hk
    by (simpl; discriminate).
  destruct (writes_need_the_key env0 (list_request ∅) ∅ "1" seed Hk)
    as [msg [_ [_ [Hd _]]]].
  exists msg. exact Hd.
Defined.

End Authentication.

(** ** Reading one record, and reading after a write *)

Section Reads.
Import Http Sample.

Lemma nth_error_lookup {A} (l : list A) (k : nat) : nth_error l k = l !! k.
Proof.
  revert k. induction l as [|x l IH]; intros [|k]; simpl; auto.
Qed.

Lemma find_first {A} (f : A -> bool) (l : list A) :
  match List.find f l with
  | Some x => exists pre post, l = (pre ++ x :: post)%list /\ f x = true
                /\ Forall (fun y => f y = false) pre
  | None => Forall (fun y => f y = false) l
  end.
Proof.
  induction l as [|y l IH]; simpl; [constructor|].
  destruct (f y) eqn:Hy.
  - exists [], l. repeat split; [exact Hy | constructor].
  - destruct (List.find f l) as [x|].
    + destruct IH as [pre [post [-> [Hx Hpre]]]].
      exists (y :: pre), post. repeat split; [exact Hx | now constructor].
    + now constructor.
Qed.

Lemma not_has_id (i : string) (l : list Product.t) :
  Forall (fun p => Rich.has_id i p = false) l <-> ~ In i (map Product.id l).
Proof.
  unfold Rich.has_id. induction l as [|p l IH]; simpl.
  - split; [tauto | constructor].
  - split.
    + intros H. inversion H as [|? ? Hp Hl]; subst.
      apply String.eqb_neq in Hp. apply IH in Hl. tauto.
    + intros H. constructor; [apply String.eqb_neq; tauto | apply IH; tauto].
Qed.

Lemma find_app_last {A} (f : A -> bool) (l : list A) (x : A) :
  List.find f (l ++ [x])
  = match List.find f l with
    | Some y => Some y
    | None => if f x then Some x else None
    end.
Proof.
  induction l as [|y l IH]; simpl; [reflexivity|].
  destruct (f y); [reflexivity | exact IH].
Qed.

Lemma find_insert_hit {A} (f : A -> bool) (l : list A) (k : nat) (x : A) :
  JS.findIndex f l = Some k -> f x = true ->
  List.find f (<[k := x]> l) = Some x.
Proof.
  revert k. induction l as [|y l IH]; intros k; simpl; [discriminate|].
  destruct (f y) eqn:Hy.
  - intros [= <-] Hx. simpl. now rewrite Hx.
  - destruct (JS.findIndex f l) as [j|]; simpl; [|discriminate].
    intros [= <-] Hx. simpl. rewrite Hy. now apply IH.
Qed.

Lemma find_insert_miss {A} (g : A -> bool) (l : list A) (k : nat) (old x : A) :
  l !! k = Some old -> g old = false -> g x = false ->
  List.find g (<[k := x]> l) = List.find g l.
Proof.
  revert k. induction l as [|y l IH]; intros [|k]; simpl;
    try discriminate.
  - intros [= ->] Ho Hx. now rewrite Ho, Hx.
  - intros Hk Ho Hx. destruct (g y); [reflexivity|]. now apply (IH k).
Qed.

Lemma find_splice_miss {A} (g : A -> bool) (l : list A) (k : nat) (old : A) :
  l !! k = Some old -> g old = false ->
  List.find g (JS.splice1 l k) = List.find g l.
Proof.
  unfold JS.splice1.
  revert k. induction l as [|y l IH]; intros [|k]; simpl;
    try discriminate.
  - intros [= ->] Ho. now rewrite Ho.
  - intros Hk Ho. destruct (g y); [reflexivity|]. now apply (IH k).
Qed.

(** GET of one product answers 200 with the first record of the store
    that has the id, and raises the not-found error, which names the id,
    exactly when no record has it; the store is returned as it was.  The
    starter server answers the same record, or 404 with a plain message. *)
Theorem get_product_first_match (i : string) (products : list Product.t) :
  (~ In i (map Product.id products) ->
   Rich.get_product i products
   = Throw (NotFoundError ("Product with id '" ++ i ++ "' not found"))
   /\ Lean.get_product i products
      = ({| status := 404; content := ErrorString "Product not found" |},
         products))
  /\ (In i (map Product.id products) ->
      exists pre p post,
        products = (pre ++ p :: post)%list
        /\ Product.id p = i
        /\ ~ In i (map Product.id pre)
        /\ Rich.get_product i products
           = Ok ({| status := 200; content := ProductJson p |}, products)
        /\ Lean.get_product i products
           = ({| status := 200; content := ProductJson p |}, products)).
Proof.
  unfold Rich.get_product, Lean.get_product, Rich.not_found.
  pose proof (find_first (Rich.has_id i) products) as Hf.
  destruct (List.find (Rich.has_id i) products) as [p|].
  - destruct Hf as [pre [post [Hl [Hp Hpre]]]].
    apply String.eqb_eq in Hp. apply not_has_id in Hpre.
    split.
    + intros Hnot. exfalso. apply Hnot. rewrite Hl, map_app. simpl.
      apply in_or_app. right. left. exact Hp.
    + intros _. exists pre, p, post. auto.
  - apply not_has_id in Hf. split; [auto | contradiction].
Qed.

(** A record created under an id that no stored record has is the one GET
    returns for that id afterwards; reads of every other id are as
    before.  When the id is already in use, GET keeps returning the older
    record. *)
Theorem created_record_is_read_back (e : env) (req : request)
    (b : gmap string JS.json) (products : list Product.t) :
  Rich.authenticateApiKey e req = Ok tt -> acceptable b ->
  exists p products',
    Rich.post_product e req b products
    = Ok ({| status := 201;
             content := WithMessage "Product created successfully" p |},
          products')
    /\ snd (Lean.post_product e req b products) = products'
    /\ (~ In (uuid e) (map Product.id products) ->
        Rich.get_product (uuid e) products'
        = Ok ({| status := 200; content := ProductJson p |}, products'))
    /\ (forall old, List.find (Rich.has_id (uuid e)) products = Some old ->
        Rich.get_product (uuid e) products'
        = Ok ({| status := 200; content := ProductJson old |}, products'))
    /\ (forall i, i <> uuid e ->
        List.find (Rich.has_id i) products'
        = List.find (Rich.has_id i) products).
Proof.
  intros Ha Hb.
  destruct (post_product_accepted e req b products Ha Hb) as [f [Hf [Hr Hl]]].
  exists (Rich.build (uuid e) f), (products ++ [Rich.build (uuid e) f])%list.
  rewrite Hl. split; [exact Hr|]. split; [reflexivity|].
  unfold Rich.get_product. split; [|split].
  - intros Hfresh. rewrite find_app_last.
    apply not_has_id in Hfresh.
    pose proof (find_first (Rich.has_id (uuid e)) products) as Hfind.
    destruct (List.find (Rich.has_id (uuid e)) products) as [x|].
    + destruct Hfind as [pre [post [-> [Hx _]]]].
      apply Forall_app in Hfresh as [_ Hfresh].
      inversion Hfresh; congruence.
    + unfold Rich.has_id at 1. simpl. now rewrite String.eqb_refl.
  - intros old Hold. now rewrite find_app_last, Hold.
  - intros i Hi. rewrite find_app_last.
    destruct (List.find (Rich.has_id i) products); [reflexivity|].
    unfold Rich.has_id. simpl.
    destruct (String.eqb_spec (uuid e) i); [congruence | reflexivity].
Qed.

Lemma created_record_is_read_back_witness :
  exists p products',
    Rich.post_product env0 (keyed env0 "POST" "/api/products" free_sample)
      free_sample seed
    = Ok ({| status := 201;
             content := WithMessage "Product created successfully" p |},
          products')
    /\ Rich.get_product (uuid env0) products'
       = Ok ({| status := 200; content := ProductJson p |}, products').
Proof.
  assert (acceptable free_sample) as Hb
    by (apply validateProduct_ok; vm_compute; reflexivity).
  destruct (created_record_is_read_back env0
              (keyed env0 "POST" "/api/products" free_sample) free_sample seed
              (keyed_authenticates _ _ _ _) Hb)
    as [p [products' [Hr [_ [Hget _]]]]].
  exists p, products'. split; [exact Hr|]. apply Hget.
  vm_compute. intuition discriminate.
Defined.

(** After a PUT that succeeded, GET of the same id returns the record the
    PUT answered with, and reads of every other id are as before. *)
Theorem replaced_record_is_read_back (e : env) (req : request)
    (b : gmap string JS.json) (i : string) (products : list Product.t) :
  Rich.authenticateApiKey e req = Ok tt -> acceptable b ->
  In i (map Product.id products) ->
  exists p products',
    Rich.put_product e req b i products
    = Ok ({| status := 200;
             content := WithMessage "Product updated successfully" p |},
          products')
    /\ snd (Lean.put_product e req b i products) = products'
    /\ length products' = length products
    /\ Rich.get_product i products'
       = Ok ({| status := 200; content := ProductJson p |}, products')
    /\ (forall j, j <> i ->
        List.find (Rich.has_id j) products'
        = List.find (Rich.has_id j) products).
Proof.
  intros Ha Hb Hin.
  destruct (put_product_accepted e req b i products Hin Ha Hb)
    as [k [f [Hk [Hf [Hr [Hl Hlook]]]]]].
  exists (Rich.build i f), (<[k := Rich.build i f]> products).
  rewrite Hl. split; [exact Hr|]. split; [reflexivity|].
  split; [apply length_insert|]. split.
  - unfold Rich.get_product.
    rewrite (find_insert_hit _ _ _ _ Hk); [reflexivity|].
    unfold Rich.has_id. simpl. apply String.eqb_refl.
  - intros j Hj. destruct (findIndex_Some _ _ _ Hk) as [old [Hold Hid]].
    apply String.eqb_eq in Hid.
    apply (find_insert_miss _ _ _ old); [exact Hold | |];
      unfold Rich.has_id; simpl; apply String.eqb_neq; congruence.
Qed.

Lemma replaced_record_is_read_back_witness :
  exists p products',
    Rich.put_product env0 (keyed env0 "PUT" "/api/products/2" tablet_with_id)
      tablet_with_id "2" seed
    = Ok ({| status := 200;
             content := WithMessage "Product updated successfully" p |},
          products')
    /\ Rich.get_product "2" products'
       = Ok ({| status := 200; content := ProductJson p |}, products').
Proof.
  assert (acceptable tablet_with_id) as Hb
    by (apply validateProduct_ok; vm_compute; reflexivity).
  assert (In "2" (map Product.id seed)) as Hin by (simpl; tauto).
  destruct (replaced_record_is_read_back env0
              (keyed env0 "PUT" "/api/products/2" tablet_with_id)
              tablet_with_id "2" seed (keyed_authenticates _ _ _ _) Hb Hin)
    as [p [products' [Hr [_ [_ [Hget _]]]]]].
  exists p, products'. auto.
Defined.

End Reads.

(** ** Deleting *)

Section Deleting.
Import Http Sample.

Lemma findIndex_split {A} (f : A -> bool) (l : list A) (k : nat) :
  JS.findIndex f l = Some k ->
  exists pre x post,
    l = (pre ++ x :: post)%list /\ length pre = k /\ f x = true
    /\ Forall (fun y => f y = false) pre.
Proof.
  revert k. induction l as [|y l IH]; intros k; simpl; [discriminate|].
  destruct (f y) eqn:Hy.
  - intros [= <-]. exists [], y, l. repeat split; [exact Hy | constructor].
  - destruct (JS.findIndex f l) as [j|]; simpl; [|discriminate].
    intros [= <-]. destruct (IH j eq_refl) as [pre [x [post [-> [Hl [Hx Hp]]]]]].
    exists (y :: pre), x, post. simpl. repeat split; auto.
Qed.

Lemma splice1_middle {A} (pre : list A) (x : A) (post : list A) :
  JS.splice1 (pre ++ x :: post) (length pre) = (pre ++ post)%list.
Proof.
  unfold JS.splice1. induction pre as [|y pre IH]; simpl; [reflexivity|].
  now rewrite IH.
Qed.

Lemma absent_id_not_found (i : string) (l : list Product.t) :
  ~ In i (map Product.id l) ->
  List.find (Rich.has_id i) l = None /\ JS.findIndex (Rich.has_id i) l = None.
Proof.
  unfold Rich.has_id. induction l as [|p l IH]; simpl; [auto|].
  intros H. destruct (String.eqb_spec (Product.id p) i); [tauto|].
  destruct IH as [-> ->]; [tauto|]. auto.
Qed.

(** An authenticated DELETE of an id of the store answers 200 with the
    first record that has the id and takes exactly that record out, the
    others staying in order; reads of other ids are as before.  When ids
    are unique the id is gone: GET and a second DELETE raise the not-found
    error. *)
Theorem delete_removes_first_match (e : env) (req : request) (i : string)
    (products : list Product.t) :
  Rich.authenticateApiKey e req = Ok tt ->
  In i (map Product.id products) ->
  exists pre p post,
    products = (pre ++ p :: post)%list
    /\ Product.id p = i
    /\ ~ In i (map Product.id pre)
    /\ Rich.delete_product e req i products
       = Ok ({| status := 200;
                content := WithMessage "Product deleted successfully" p |},
             (pre ++ post)%list)
    /\ Lean.delete_product e req i products
       = ({| status := 200;
             content := WithMessage "Product deleted successfully" p |},
          (pre ++ post)%list)
    /\ (forall j, j <> i ->
        List.find (Rich.has_id j) (pre ++ post)
        = List.find (Rich.has_id j) products)
    /\ (NoDup (map Product.id products) ->
        ~ In i (map Product.id (pre ++ post))
        /\ Rich.get_product i (pre ++ post) = Throw (Rich.not_found i)
        /\ Rich.delete_product e req i (pre ++ post)
           = Throw (Rich.not_found i)).
Proof.
  intros Ha Hin.
  destruct (findIndex_present i products Hin) as [k Hk].
  destruct (findIndex_split _ _ _ Hk) as [pre [p [post [Hl [Hlen [Hp Hpre]]]]]].
  apply String.eqb_eq in Hp. apply not_has_id in Hpre.
  assert (products !! k = Some p) as Hlook.
  { rewrite Hl, <- Hlen. rewrite lookup_app_r by lia.
    now rewrite Nat.sub_diag. }
  assert (JS.splice1 products k = (pre ++ post)%list) as Hsp
    by (rewrite Hl, <- Hlen; apply splice1_middle).
  exists pre, p, post.
  split; [exact Hl|]. split; [exact Hp|]. split; [exact Hpre|].
  split; [|split; [|split]].
  - unfold Rich.delete_product. rewrite Ha. simpl.
    rewrite Hk, nth_error_lookup, Hlook, Hsp. reflexivity.
  - unfold Lean.delete_product.
    rewrite (proj2 (lean_authenticate_agrees e req) Ha).
    rewrite Hk, nth_error_lookup, Hlook, Hsp. reflexivity.
  - intros j Hj. rewrite <- Hsp.
    apply (find_splice_miss _ _ _ p Hlook).
    unfold Rich.has_id. apply String.eqb_neq. congruence.
  - intros Hnd.
    assert (~ In i (map Product.id (pre ++ post))) as Hgone.
    { rewrite Hl, map_app in Hnd. simpl in Hnd. rewrite Hp in Hnd.
      apply NoDup_ListNoDup, List.NoDup_remove_2 in Hnd.
      now rewrite map_app. }
    destruct (absent_id_not_found i _ Hgone) as [Hfind Hidx].
    split; [exact Hgone|]. split.
    + unfold Rich.get_product. now rewrite Hfind.
    + unfold Rich.delete_product. rewrite Ha. simpl. now rewrite Hidx.
Qed.

Lemma delete_removes_first_match_witness :
  exists pre p post,
    seed = (pre ++ p :: post)%list
    /\ Rich.delete_product env0 (keyed env0 "DELETE" "/api/products/2" ∅)
         "2" seed
       = Ok ({| status := 200;
                content := WithMessage "Product deleted successfully" p |},
             (pre ++ post)%list)
    /\ Rich.get_product "2" (pre ++ post) = Throw (Rich.not_found "2").
Proof.
  assert (In "2" (map Product.id seed)) as Hin by (simpl; tauto).
  destruct (delete_removes_first_match env0
              (keyed env0 "DELETE" "/api/products/2" ∅) "2" seed
              (keyed_authenticates _ _ _ _) Hin)
    as [pre [p [post [Hl [_ [_ [Hd [_ [_ Hgone]]]]]]]]].
  exists pre, p, post. split; [exact Hl|]. split; [exact Hd|].
  apply Hgone. apply NoDup_ListNoDup. vm_compute.
  repeat constructor; simpl; intuition discriminate.
Defined.

End Deleting.

(** ** Routes and path parameters *)

Section Routes.
Import Http Sample.







End Routes.

(** ** How the store evolves *)

Section Evolution.
Import Http Sample.

Lemma dispatch_method (m : string) (segs : list string) (ep : Rich.endpoint)
    (ps : list (string * string)) :
  dispatch Rich.routes m segs = Some (ep, ps) ->
  match ep with
  | Rich.CreateProduct => m = "POST"
  | Rich.UpdateProduct => m = "PUT"
  | Rich.DeleteProduct => m = "DELETE"
  | _ => m = "GET"
  end.
Proof.
  unfold Rich.routes. cbn [dispatch].
  destruct (String.eqb_spec m "GET"), (String.eqb_spec m "POST"),
    (String.eqb_spec m "PUT"), (String.eqb_spec m "DELETE"); cbv iota;
    repeat match goal with
           | |- context [match match_pattern ?p ?s with _ => _ end] =>
               destruct (match_pattern p s)
           end;
    intros [= <- <-]; first [assumption | congruence].
Qed.

Lemma lean_dispatch_method (m : string) (segs : list string)
    (ep : Lean.endpoint) (ps : list (string * string)) :
  dispatch Lean.routes m segs = Some (ep, ps) ->
  match ep with
  | Lean.CreateProduct => m = "POST"
  | Lean.UpdateProduct => m = "PUT"
  | Lean.DeleteProduct => m = "DELETE"
  | _ => m = "GET"
  end.
Proof.
  unfold Lean.routes. cbn [dispatch].
  destruct (String.eqb_spec m "GET"), (String.eqb_spec m "POST"),
    (String.eqb_spec m "PUT"), (String.eqb_spec m "DELETE"); cbv iota;
    repeat match goal with
           | |- context [match match_pattern ?p ?s with _ => _ end] =>
               destruct (match_pattern p s)
           end;
    intros [= <- <-]; first [assumption | congruence].
Qed.

(** Every request leaves the store as it was, appends one record built
    from the body, replaces the first record of an id by such a record, or
    removes the first record of an id; each change needs its method, the
    key and a 2xx answer. *)
Lemma rich_store_transitions (e : env) (req : request)
    (products : list Product.t) :
  snd (Rich.app e req products) = products
  \/ (method req = "POST"
      /\ x_api_key req = Some (Rich.expectedApiKey e)
      /\ status (fst (Rich.app e req products)) = 201
      /\ exists b f, body req = Some b /\ acceptable b
           /\ fields_of_body b = Some f
           /\ snd (Rich.app e req products)
              = (products ++ [Rich.build (uuid e) f])%list)
  \/ (method req = "PUT"
      /\ x_api_key req = Some (Rich.expectedApiKey e)
      /\ status (fst (Rich.app e req products)) = 200
      /\ exists b f i k, body req = Some b /\ acceptable b
           /\ fields_of_body b = Some f
           /\ JS.findIndex (Rich.has_id i) products = Some k
           /\ snd (Rich.app e req products)
              = <[k := Rich.build i f]> products)
  \/ (method req = "DELETE"
      /\ x_api_key req = Some (Rich.expectedApiKey e)
      /\ status (fst (Rich.app e req products)) = 200
      /\ exists i k, JS.findIndex (Rich.has_id i) products = Some k
           /\ snd (Rich.app e req products) = JS.splice1 products k).
Proof.
  unfold Rich.app.
  destruct (body req) as [b|] eqn:Hbody; [|left; reflexivity].
  destruct (segments (path req)) as [segs|]; [|left; reflexivity].
  destruct (dispatch Rich.routes (method req) segs) as [[ep ps]|] eqn:Hd;
    [|left; reflexivity].
  apply dispatch_method in Hd.
  destruct ep; cbn [Rich.run]; try (left; reflexivity).
  - left. unfold Rich.get_product.
    destruct (List.find _ products); reflexivity.
  - unfold Rich.post_product, Rich.destructure, mbind, result_bind.
    destruct (Rich.authenticateApiKey e req) as [[]|] eqn:Ha;
      [|left; reflexivity].
    destruct (Rich.validateProduct b) as [[]|] eqn:Hv; [|left; reflexivity].
    destruct (fields_of_body b) as [f|] eqn:Hf; [|left; reflexivity].
    right; left. apply authenticate_ok_iff in Ha.
    apply validateProduct_ok in Hv.
    repeat split; try assumption. exists b, f. auto.
  - unfold Rich.put_product, Rich.destructure, mbind, result_bind.
    destruct (Rich.authenticateApiKey e req) as [[]|] eqn:Ha;
      [|left; reflexivity].
    destruct (Rich.validateProduct b) as [[]|] eqn:Hv; [|left; reflexivity].
    destruct (JS.findIndex (Rich.has_id (param ps "id")) products)
      as [k|] eqn:Hk; [|left; reflexivity].
    destruct (fields_of_body b) as [f|] eqn:Hf; [|left; reflexivity].
    right; right; left. apply authenticate_ok_iff in Ha.
    apply validateProduct_ok in Hv.
    repeat split; try assumption. exists b, f, (param ps "id"), k. auto.
  - unfold Rich.delete_product, mbind, result_bind.
    destruct (Rich.authenticateApiKey e req) as [[]|] eqn:Ha;
      [|left; reflexivity].
    destruct (JS.findIndex (Rich.has_id (param ps "id")) products)
      as [k|] eqn:Hk; [|left; reflexivity].
    destruct (nth_error products k) as [d|]; [|left; reflexivity].
    right; right; right. apply authenticate_ok_iff in Ha.
    repeat split; try assumption. exists (param ps "id"), k. auto.
Qed.

(** A GET, a request without the expected key and a request that is not
    answered 200 or 201 leave the store exactly as it was. *)
Theorem store_changes_only_by_accepted_writes (e : env) (req : request)
    (products : list Product.t) :
  (method req = "GET" -> snd (Rich.app e req products) = products)
  /\ (x_api_key req <> Some (Rich.expectedApiKey e) ->
      snd (Rich.app e req products) = products)
  /\ (status (fst (Rich.app e req products)) <> 200 ->
      status (fst (Rich.app e req products)) <> 201 ->
      snd (Rich.app e req products) = products)
  /\ (body req = None -> snd (Rich.app e req products) = products).
Proof.
  assert (body req = None -> snd (Rich.app e req products) = products) as Hb
    by (unfold Rich.app; intros ->; reflexivity).
  destruct (rich_store_transitions e req products)
    as [H | [[Hm [Hk [Hs _]]] | [[Hm [Hk [Hs _]]] | [Hm [Hk [Hs _]]]]]].
  - auto.
  - repeat split; try exact Hb; intros; congruence.
  - repeat split; try exact Hb; intros; congruence.
  - repeat split; try exact Hb; intros; congruence.
Qed.

End Evolution.

(** ** What every stored record satisfies *)

Section Invariants.
Import Http Sample.

Lemma trimEnd_unfold (c : ascii) (s : string) :
  JS.trimEnd (String c s)
  = match JS.trimEnd s with
    | EmptyString => if JS.is_ws c then EmptyString else String c EmptyString
    | r' => String c r'
    end.
Proof. reflexivity. Qed.

Lemma trimEnd_idempotent (s : string) : JS.trimEnd (JS.trimEnd s) = JS.trimEnd s.
Proof.
  induction s as [|c s IH]; [reflexivity|].
  rewrite (trimEnd_unfold c s).
  destruct (JS.trimEnd s) as [|d r] eqn:Hr.
  - destruct (JS.is_ws c) eqn:Hc; [reflexivity|].
    rewrite trimEnd_unfold. simpl. now rewrite Hc.
  - rewrite trimEnd_unfold, IH. reflexivity.
Qed.

Lemma trimStart_head (s : string) :
  JS.trimStart s = ""
  \/ exists c r, JS.trimStart s = String c r /\ JS.is_ws c = false.
Proof.
  induction s as [|c s IH]; simpl; [auto|].
  destruct (JS.is_ws c) eqn:Hc; [exact IH|]. right. eauto.
Qed.

Lemma trimEnd_head (c : ascii) (r : string) :
  JS.is_ws c = false -> exists r', JS.trimEnd (String c r) = String c r'.
Proof.
  intros Hc. rewrite trimEnd_unfold.
  destruct (JS.trimEnd r); [rewrite Hc|]; eauto.
Qed.

(** Trimming a trimmed string changes nothing. *)
Lemma trim_idempotent (s : string) : JS.trim (JS.trim s) = JS.trim s.
Proof.
  unfold JS.trim.
  destruct (trimStart_head s) as [-> | [c [r [-> Hc]]]]; [reflexivity|].
  destruct (trimEnd_head c r Hc) as [r' Hr]. rewrite Hr.
  cbn [JS.trimStart]. rewrite Hc, <- Hr. apply trimEnd_idempotent.
Qed.

Lemma build_record_ok (b : gmap string JS.json) (f : fields) (i : string) :
  acceptable b -> fields_of_body b = Some f -> record_ok (Rich.build i f).
Proof.
  intros Hb Hf.
  destruct (acceptable_fields b Hb) as [f' [Hf' [Hn [Hd [Hp Hc]]]]].
  rewrite Hf in Hf'. injection Hf' as <-.
  destruct Hb as [[[n [Hn' Hnt]] [_ [[c [Hc' Hct]] _]]] [p [Hp' Hge]]].
  rewrite Hn in Hn'. rewrite Hc in Hc'. rewrite Hp in Hp'.
  injection Hn' as <-. injection Hc' as <-. injection Hp' as <-.
  unfold record_ok, Rich.build. simpl.
  rewrite !trim_idempotent. repeat split; assumption.
Qed.

Lemma splice1_sub {A} (l : list A) (k : nat) (P : A -> Prop) :
  Forall P l -> Forall P (JS.splice1 l k).
Proof.
  intros H. unfold JS.splice1. apply Forall_app.
  split; [apply Forall_take | apply Forall_drop]; exact H.
Qed.

Lemma lean_post_store (e : env) (req : request) (b : gmap string JS.json)
    (products : list Product.t) :
  snd (Lean.post_product e req b products)
  = store_after (Rich.post_product e req b products) products.
Proof.
  unfold Lean.post_product, Rich.post_product, Rich.destructure,
    mbind, result_bind.
  destruct (Rich.authenticateApiKey e req) as [[]|] eqn:Ha.
  - rewrite (proj2 (lean_authenticate_agrees e req) Ha).
    destruct (Rich.validateProduct b) as [[]|] eqn:Hv.
    + rewrite (proj2 (lean_validateProduct_agrees b) Hv).
      destruct (fields_of_body b); reflexivity.
    + destruct (Lean.validateProduct b) eqn:Hl; [reflexivity|].
      apply lean_validateProduct_agrees in Hl. congruence.
  - destruct (Lean.authenticateApiKey e req) eqn:Hl; [reflexivity|].
    apply lean_authenticate_agrees in Hl. congruence.
Qed.

Lemma lean_put_store (e : env) (req : request) (b : gmap string JS.json)
    (i : string) (products : list Product.t) :
  snd (Lean.put_product e req b i products)
  = store_after (Rich.put_product e req b i products) products.
Proof.
  unfold Lean.put_product, Rich.put_product, Rich.destructure,
    mbind, result_bind.
  destruct (Rich.authenticateApiKey e req) as [[]|] eqn:Ha.
  - rewrite (proj2 (lean_authenticate_agrees e req) Ha).
    destruct (Rich.validateProduct b) as [[]|] eqn:Hv.
    + rewrite (proj2 (lean_validateProduct_agrees b) Hv).
      destruct (JS.findIndex _ products); [|reflexivity].
      destruct (fields_of_body b); reflexivity.
    + destruct (Lean.validateProduct b) eqn:Hl; [reflexivity|].
      apply lean_validateProduct_agrees in Hl. congruence.
  - destruct (Lean.authenticateApiKey e req) eqn:Hl; [reflexivity|].
    apply lean_authenticate_agrees in Hl. congruence.
Qed.

Lemma lean_delete_store (e : env) (req : request) (i : string)
    (products : list Product.t) :
  snd (Lean.delete_product e req i products)
  = store_after (Rich.delete_product e req i products) products.
Proof.
  unfold Lean.delete_product, Rich.delete_product, mbind, result_bind.
  destruct (Rich.authenticateApiKey e req) as [[]|] eqn:Ha.
  - rewrite (proj2 (lean_authenticate_agrees e req) Ha).
    destruct (JS.findIndex _ products); [|reflexivity].
    destruct (nth_error products _); reflexivity.
  - destruct (Lean.authenticateApiKey e req) eqn:Hl; [reflexivity|].
    apply lean_authenticate_agrees in Hl. congruence.
Qed.

Lemma lean_get_keeps_store (i : string) (products : list Product.t) :
  snd (Lean.get_product i products) = products.
Proof. unfold Lean.get_product. destruct (List.find _ _); reflexivity. Qed.

Lemma lean_store_agrees (e : env) (req : request)
    (products : list Product.t) :
  snd (Lean.app e req products) = snd (Rich.app e req products).
Proof.
  destruct (String.eqb_spec (method req) "GET") as [Hg|Hng].
  - destruct (rich_store_transitions e req products)
      as [-> | [[Hm _] | [[Hm _] | [Hm _]]]]; try congruence.
    unfold Lean.app.
    destruct (body req) as [b|]; [|reflexivity].
    destruct (segments (path req)) as [segs|]; [|reflexivity].
    destruct (dispatch Lean.routes (method req) segs) as [[ep ps]|] eqn:Hd;
      [|reflexivity].
    apply lean_dispatch_method in Hd.
    destruct ep; cbn [Lean.run]; try reflexivity; try congruence.
    apply lean_get_keeps_store.
  - unfold Lean.app, Rich.app.
    destruct (body req) as [b|]; [|reflexivity].
    destruct (segments (path req)) as [segs|]; [|reflexivity].
    unfold Lean.routes, Rich.routes. cbn [dispatch].
    rewrite (proj2 (String.eqb_neq (method req) "GET") Hng). cbv iota.
    repeat match goal with
           | |- context [String.eqb (method req) ?x] =>
               destruct (String.eqb (method req) x); cbv iota
           | |- context [match_pattern ?p segs] =>
               destruct (match_pattern p segs); cbv iota
           end;
      cbn [Lean.run Rich.run];
      rewrite ?lean_post_store, ?lean_put_store, ?lean_delete_store;
      try reflexivity;
      match goal with
      | |- context [match ?r with Ok _ => _ | Throw _ => _ end] =>
          destruct r as [[? ?]|]; reflexivity
      end.
Qed.

Lemma findIndex_nth_error {A} (f : A -> bool) (l : list A) (k : nat) :
  JS.findIndex f l = Some k -> exists x, nth_error l k = Some x.
Proof.
  intros Hk. destruct (findIndex_Some _ _ _ Hk) as [x [Hx _]].
  exists x. now rewrite nth_error_lookup.
Qed.

(** On the same request, body, id and store, each write handler of the
    starter server leaves the store the handler of the other server
    leaves, and answers with the status the other server answers with
    once its error handler has run; its readers leave the store as it is.
    The two servers' handlers differ in the bodies of their answers
    only. *)
Theorem starter_handlers_agree (e : env) (req : request)
    (b : gmap string JS.json) (i : string) (products : list Product.t) :
  (snd (Lean.post_product e req b products)
   = store_after (Rich.post_product e req b products) products
   /\ status (fst (Lean.post_product e req b products))
      = status (fst (answer e req (Rich.post_product e req b products)
                       products)))
  /\ (snd (Lean.put_product e req b i products)
      = store_after (Rich.put_product e req b i products) products
      /\ status (fst (Lean.put_product e req b i products))
         = status (fst (answer e req (Rich.put_product e req b i products)
                          products)))
  /\ (snd (Lean.delete_product e req i products)
      = store_after (Rich.delete_product e req i products) products
      /\ status (fst (Lean.delete_product e req i products))
         = status (fst (answer e req (Rich.delete_product e req i products)
                          products)))
  /\ (snd (Lean.get_product i products) = products
      /\ status (fst (Lean.get_product i products))
         = status (fst (answer e req (Rich.get_product i products)
                          products)))
  /\ Lean.get_products products
     = ({| status := 200; content := ProductList products |}, products).
Proof.
  split; [|split; [|split; [|split]]].
  - split; [apply lean_post_store|].
    unfold Lean.post_product, Rich.post_product, Rich.destructure, answer,
      Lean.authenticateApiKey, Rich.authenticateApiKey, Lean.validateProduct,
      Rich.validateProduct, Lean.refuse, mbind, result_bind.
    destruct (x_api_key req) as [key|]; [|reflexivity].
    case_ifs; try reflexivity.
    destruct (fields_of_body b); reflexivity.
  - split; [apply lean_put_store|].
    unfold Lean.put_product, Rich.put_product, Rich.destructure, answer,
      Lean.authenticateApiKey, Rich.authenticateApiKey, Lean.validateProduct,
      Rich.validateProduct, Lean.refuse, mbind, result_bind.
    destruct (x_api_key req) as [key|]; [|reflexivity].
    case_ifs; try reflexivity.
    destruct (JS.findIndex (Rich.has_id i) products); [|reflexivity].
    destruct (fields_of_body b); reflexivity.
  - split; [apply lean_delete_store|].
    unfold Lean.delete_product, Rich.delete_product, answer,
      Lean.authenticateApiKey, Rich.authenticateApiKey, Lean.refuse,
      mbind, result_bind.
    destruct (x_api_key req) as [key|]; [|reflexivity].
    case_ifs; try reflexivity.
    destruct (JS.findIndex (Rich.has_id i) products) as [k|] eqn:Hk;
      [|reflexivity].
    destruct (findIndex_nth_error _ _ _ Hk) as [x ->]. reflexivity.
  - split; [apply lean_get_keeps_store|].
    unfold Lean.get_product, Rich.get_product, answer.
    destruct (List.find (Rich.has_id i) products); reflexivity.
  - reflexivity.
Qed.

(** Starting from records that are well formed (name and category
    non-empty and without surrounding white space, description without
    surrounding white space, price not negative), every request to either
    in-memory server leaves a store of well-formed records. *)
Theorem stored_records_stay_well_formed (e : env) (req : request)
    (products : list Product.t) :
  Forall record_ok products ->
  Forall record_ok (snd (Rich.app e req products))
  /\ Forall record_ok (snd (Lean.app e req products)).
Proof.
  intros Hok.
  assert (Forall record_ok (snd (Rich.app e req products))) as Hr.
  { destruct (rich_store_transitions e req products)
      as [-> | [[_ [_ [_ [b [f [_ [Hb [Hf ->]]]]]]]]
             | [[_ [_ [_ [b [f [i [k [_ [Hb [Hf [_ ->]]]]]]]]]]]
               | [_ [_ [_ [i [k [_ ->]]]]]]]]].
    - exact Hok.
    - apply Forall_app. split; [exact Hok|].
      constructor; [|constructor]. now apply (build_record_ok b).
    - apply Forall_insert; [exact Hok|]. now apply (build_record_ok b).
    - now apply splice1_sub. }
  split; [exact Hr|]. now rewrite lean_store_agrees.
Qed.

Lemma seed_well_formed : Forall record_ok seed.
Proof.
  repeat constructor; try discriminate; unfold Qle; simpl; lia.
Qed.

Lemma stored_records_stay_well_formed_witness :
  Forall record_ok seed
  /\ Forall record_ok
       (snd (Rich.app env0 (collection_request "POST"
                              (Some "your-secret-api-key") ∅ padded) seed)).
Proof.
  split; [exact seed_well_formed|].
  apply (stored_records_stay_well_formed env0 _ seed seed_well_formed).
Defined.

(** Ids stay unique: from a store without two records of one id, every
    request to either server leaves such a store, provided the id generator
    returns an id that is not in use when the request is a POST. *)
Theorem ids_stay_unique (e : env) (req : request)
    (products : list Product.t) :
  NoDup (map Product.id products) ->
  (method req = "POST" -> ~ In (uuid e) (map Product.id products)) ->
  NoDup (map Product.id (snd (Rich.app e req products)))
  /\ NoDup (map Product.id (snd (Lean.app e req products))).
Proof.
  intros Hnd Hfresh. rewrite lean_store_agrees.
  assert (NoDup (map Product.id (snd (Rich.app e req products)))) as Hr;
    [|split; exact Hr].
  destruct (rich_store_transitions e req products)
    as [-> | [[Hm [_ [_ [b [f [_ [_ [_ ->]]]]]]]]
           | [[_ [_ [_ [b [f [i [k [_ [_ [_ [Hk ->]]]]]]]]]]]
             | [_ [_ [_ [i [k [Hk ->]]]]]]]]].
  - exact Hnd.
  - rewrite map_app. apply NoDup_app. split; [exact Hnd|].
    split; [|apply NoDup_singleton].
    intros x Hx Hx'. simpl in Hx'. apply list_elem_of_In in Hx, Hx'.
    destruct Hx' as [<-|[]]. now apply (Hfresh Hm).
  - destruct (findIndex_Some _ _ _ Hk) as [old [Hold Hid]].
    apply String.eqb_eq in Hid.
    assert (Product.id (Rich.build i f) = Product.id old) as Hsame
      by (simpl; congruence).
    pose proof (replace_keeps_ids products k old _ Hold Hsame) as Hids.
    unfold JS.set_at in Hids. now rewrite Hids.
  - destruct (findIndex_split _ _ _ Hk) as [pre [x [post [Hl [Hlen _]]]]].
    rewrite Hl, <- Hlen, splice1_middle.
    rewrite Hl, map_app in Hnd. simpl in Hnd.
    apply NoDup_ListNoDup, List.NoDup_remove_1 in Hnd.
    rewrite map_app. now apply NoDup_ListNoDup.
Qed.

Lemma ids_stay_unique_witness :
  NoDup (map Product.id seed)
  /\ NoDup (map Product.id
              (snd (Rich.app env0
                      (product_request "DELETE" "2"
                         (Some "your-secret-api-key") ∅) seed))).
Proof.
  assert (NoDup (map Product.id seed)) as Hnd.
  { apply NoDup_ListNoDup. vm_compute.
    repeat constructor; simpl; intuition discriminate. }
  split; [exact Hnd|].
  apply (ids_stay_unique env0 _ seed Hnd). simpl. discriminate.
Defined.

End Invariants.

(** ** Pages *)

Section Paging.
Import Http Sample.

Lemma page_data_take_drop (q : gmap string JS.qval)
    (products : list Product.t) :
  page_data q products
  = firstn (Z.to_nat (Rich.limitNum q))
      (skipn (Z.to_nat ((Rich.pageNum q - 1) * Rich.limitNum q))
         (Rich.filtered q products)).
Proof.
  unfold page_data.
  pose proof (pageNum_ge_1 q). pose proof (limitNum_bounds q).
  apply slice_take_drop; nia.
Qed.


(** The record at position [j] of the filtered list is found on page
    [j / limit + 1] at position [j mod limit]: the pages cut the filtered
    list into consecutive runs without gap or overlap. *)
Theorem record_is_on_its_page (q : gmap string JS.qval)
    (products : list Product.t) (j : nat) :
  Rich.pageNum q = Z.of_nat j / Rich.limitNum q + 1 ->
  page_data q products !! Z.to_nat (Z.of_nat j mod Rich.limitNum q)
  = Rich.filtered q products !! j.
Proof.
  intros Hpage.
  pose proof (limitNum_bounds q) as Hl.
  pose proof (Z.div_mod (Z.of_nat j) (Rich.limitNum q)) as Hdm.
  pose proof (Z.mod_pos_bound (Z.of_nat j) (Rich.limitNum q)) as Hmod.
  pose proof (Z.div_pos (Z.of_nat j) (Rich.limitNum q)) as Hdiv.
  rewrite page_data_take_drop, Hpage.
  rewrite lookup_take_lt by lia. rewrite lookup_drop. f_equal. nia.
Qed.

Lemma record_is_on_its_page_witness :
  let q : gmap string JS.qval :=
    {[ "limit" := JS.QStr "2"; "page" := JS.QStr "2" ]} in
  Rich.pageNum q = Z.of_nat 2 / Rich.limitNum q + 1
  /\ page_data q seed !! Z.to_nat (Z.of_nat 2 mod Rich.limitNum q)
     = Rich.filtered q seed !! 2%nat.
Proof.
  intros q. split; [vm_compute; reflexivity|].
  apply (record_is_on_its_page q seed 2). vm_compute. reflexivity.
Defined.


End Paging.

(** ** Statistics on every store *)

Section Counting.
Import Http Sample.

Lemma count_step_at (acc : gmap string JS.value) (p : Product.t)
    (c : string) (n : nat) :
  JS.Object_prototype c = None -> acc !! c = tally n ->
  Rich.count_step acc p !! c
  = tally (n + if String.eqb (Product.category p) c then 1 else 0).
Proof.
  intros Hown Hacc. unfold Rich.count_step, JS.set, JS.get.
  destruct (String.eqb_spec (Product.category p) c) as [->|Hne].
  - destruct (String.eqb_spec c "__proto__") as [E|_].
    { rewrite E in Hown. discriminate. }
    rewrite lookup_insert_eq, Hacc.
    replace (match tally n with
             | Some v => Some v
             | None => JS.Object_prototype c
             end) with (tally n) by (rewrite Hown; now destruct (tally n)).
    rewrite or_zero_tally. cbn [JS.plus_one]. unfold tally.
    replace (n + 1 =? 0)%nat with false by (symmetry; apply Nat.eqb_neq; lia).
    do 2 f_equal. lia.
  - destruct (String.eqb (Product.category p) "__proto__");
      [|rewrite lookup_insert_ne by assumption];
      rewrite Hacc; f_equal; lia.
Qed.

Lemma fold_count_at (l : list Product.t) (c : string) :
  JS.Object_prototype c = None ->
  forall (acc : gmap string JS.value) (n : nat),
    acc !! c = tally n ->
    fold_left Rich.count_step l acc !! c = tally (n + count_category c l).
Proof.
  intros Hown. induction l as [|p l IH]; intros acc n Hacc; simpl.
  - rewrite Hacc. f_equal. unfold count_category. simpl. lia.
  - rewrite (IH _ _ (count_step_at acc p c n Hown Hacc)).
    rewrite count_category_cons. f_equal. lia.
Qed.

(** Whatever else the store holds, a category whose name is not the name
    of an inherited property of objects has, in [byCategory], exactly the
    number of its records, and no entry when it has none. *)
Theorem ordinary_categories_are_counted (products : list Product.t)
    (c : string) :
  JS.Object_prototype c = None ->
  Rich.byCategory products !! c = tally (count_category c products).
Proof.
  intros Hown. unfold Rich.byCategory.
  apply (fold_count_at products c Hown ∅ 0%nat). apply lookup_empty.
Qed.

Lemma ordinary_categories_are_counted_witness :
  Rich.byCategory (seed ++ [blocks "4"]) !! "electronics"
  = Some (JS.VNum 2).
Proof.
  rewrite (ordinary_categories_are_counted (seed ++ [blocks "4"])
             "electronics" eq_refl).
  reflexivity.
Defined.

Lemma count_step_keys (acc : gmap string JS.value) (p : Product.t)
    (c : string) (v : JS.value) :
  Rich.count_step acc p !! c = Some v ->
  (c = Product.category p /\ c <> "__proto__") \/ acc !! c = Some v.
Proof.
  unfold Rich.count_step, JS.set.
  destruct (String.eqb_spec (Product.category p) "__proto__") as [E|Hne];
    [auto|].
  destruct (String.eqb_spec (Product.category p) c) as [<-|Hc].
  - intros _. left. auto.
  - rewrite lookup_insert_ne by assumption. auto.
Qed.

(** The keys of [byCategory] are categories of stored records, "__proto__"
    is never one of them, and the answer carries the size of the store and
    a number of records in stock that does not exceed it; the store is
    returned untouched. *)
Theorem stats_keys_are_categories (products : list Product.t) :
  (forall c v, Rich.byCategory products !! c = Some v ->
     In c (map Product.category products) /\ c <> "__proto__")
  /\ exists in_stock,
       Rich.get_stats products
       = Ok ({| status := 200;
                content := Stats (Z.of_nat (length products)) in_stock
                             (Rich.byCategory products) |}, products)
       /\ 0 <= in_stock <= Z.of_nat (length products).
Proof.
  split.
  - unfold Rich.byCategory.
    assert (forall l (acc : gmap string JS.value) c v,
              fold_left Rich.count_step l acc !! c = Some v ->
              (In c (map Product.category l) /\ c <> "__proto__")
              \/ acc !! c = Some v) as Hfold.
    { induction l as [|p l IH]; intros acc c v; simpl; [auto|].
      intros H. destruct (IH _ _ _ H) as [[Hin Hne] | Hstep]; [tauto|].
      destruct (count_step_keys _ _ _ _ Hstep) as [[-> Hne] | Hacc]; auto. }
    intros c v H. destruct (Hfold _ _ _ _ H) as [Hc | Hempty]; [exact Hc|].
    rewrite lookup_empty in Hempty. discriminate.
  - eexists. split; [reflexivity|].
    pose proof (List.filter_length_le Product.inStock products). lia.
Qed.

End Counting.

(** ** What the validator answers *)

Section Verdicts.
Import Http Sample.

(** The validator either lets the body through or raises a validation
    error with one of six messages; the message about missing fields is
    raised exactly when name, description or category is absent or falsy or
    price is absent; the starter server refuses the same bodies with the
    same message and status 400. *)
Theorem validation_verdicts (b : gmap string JS.json) :
  (Rich.validateProduct b = Ok tt
   \/ exists msg, Rich.validateProduct b = Throw (ValidationError msg)
                  /\ In msg validation_messages)
  /\ (Rich.validateProduct b
      = Throw (ValidationError
          "Missing required fields: name, description, price, category are required")
      <-> (JS.truthy (b !! "name") = false
           \/ JS.truthy (b !! "description") = false
           \/ b !! "price" = None
           \/ JS.truthy (b !! "category") = false))
  /\ Lean.validateProduct b
     = match Rich.validateProduct b with
       | Throw (ValidationError msg) =>
           Some {| status := 400; content := ErrorString msg |}
       | _ => None
       end.
Proof.
  split; [|split].
  - unfold Rich.validateProduct, validation_messages.
    case_ifs; [right; eexists; split; [reflexivity | simpl; tauto] .. | left;
               reflexivity].
  - unfold Rich.validateProduct.
    destruct (JS.truthy (b !! "name")), (JS.truthy (b !! "description")),
      (b !! "price") as [p|], (JS.truthy (b !! "category"));
      cbn [negb orb Rich.is_undefined];
      try (split; [intros _; tauto | reflexivity]).
    split; [|intros [H|[H|[H|H]]]; discriminate].
    case_ifs; discriminate.
  - unfold Lean.validateProduct, Rich.validateProduct, Lean.refuse.
    case_ifs; reflexivity.
Qed.

(** The record a successful POST creates has the generated id, the price
    as sent and [inStock] as sent, or [true] when the body has none; a
    description of white space only passes the validator and is stored as
    the empty string. *)
Theorem created_record_fields (e : env) (req : request)
    (b : gmap string JS.json) (products : list Product.t) :
  Rich.authenticateApiKey e req = Ok tt -> acceptable b ->
  exists p d price,
    Rich.post_product e req b products
    = Ok ({| status := 201;
             content := WithMessage "Product created successfully" p |},
          (products ++ [p])%list)
    /\ Product.id p = uuid e
    /\ b !! "price" = Some (JS.JNum price) /\ Product.price p = price
    /\ (b !! "inStock" = None -> Product.inStock p = true)
    /\ (forall s, b !! "inStock" = Some (JS.JBool s) -> Product.inStock p = s)
    /\ b !! "description" = Some (JS.JStr d)
    /\ (JS.trim d = "" -> Product.description p = "").
Proof.
  intros Ha Hb.
  destruct (post_product_accepted e req b products Ha Hb) as [f [Hf [Hr _]]].
  destruct (acceptable_fields b Hb) as [f' [Hf' [_ [Hd [Hp _]]]]].
  rewrite Hf in Hf'. injection Hf' as <-.
  exists (Rich.build (uuid e) f), (f_description f), (f_price f).
  split; [exact Hr|]. split; [reflexivity|]. split; [exact Hp|].
  split; [reflexivity|].
  revert Hf. unfold fields_of_body.
  destruct (b !! "name") as [[| | |n| |]|]; try discriminate.
  destruct (b !! "description") as [[| | |d'| |]|]; try discriminate.
  destruct (b !! "price") as [[| |p'| | |]|]; try discriminate.
  destruct (b !! "category") as [[| | |c| |]|]; try discriminate.
  destruct (b !! "inStock") as [[|s| | | |]|]; try discriminate;
    intros [= <-]; simpl; repeat split; try discriminate; auto.
  intros s' [= ->]. reflexivity.
Qed.

Lemma created_record_fields_witness :
  exists p,
    Rich.post_product env0 (keyed env0 "POST" "/api/products" blocks_body)
      blocks_body seed
    = Ok ({| status := 201;
             content := WithMessage "Product created successfully" p |},
          (seed ++ [p])%list)
    /\ Product.inStock p = true.
Proof.
  assert (acceptable blocks_body) as Hb
    by (apply validateProduct_ok; vm_compute; reflexivity).
  destruct (created_record_fields env0
              (keyed env0 "POST" "/api/products" blocks_body) blocks_body seed
              (keyed_authenticates _ _ _ _) Hb)
    as [p [d [price [Hr [_ [_ [_ [Hs _]]]]]]]].
  exists p. split; [exact Hr|]. apply Hs. reflexivity.
Defined.

End Verdicts.

(** ** The Mongoose-backed router: what a write may do *)

Section Collection.
Import Http Sample.

Lemma document_id (m : Mongo.schema_types) (i : string)
    (b : gmap string JS.json) (p : Product.t) :
  Mongo.document m i b = Some p -> Product.id p = i.
Proof.
  unfold Mongo.document. intros H. simplify_option_eq. reflexivity.
Qed.

(** A POST to the router leaves the collection as it was or appends one
    record under the generated id, the latter only with status 201 and an
    accepted write; a PUT never changes the ids or the size of the
    collection; a refused write changes nothing; a body without [inStock]
    is answered 400 by both, there being no default. *)
Theorem mongo_writes (m : Mongo.schema_types) (accepted : bool) (e : env)
    (b : gmap string JS.json) (i : string) (collection : list Product.t) :
  (snd (Mongo.post_product m accepted e b collection) = collection
   \/ exists p,
        Mongo.post_product m accepted e b collection
        = ({| status := 201; content := ProductJson p |},
           (collection ++ [p])%list)
        /\ Product.id p = uuid e /\ accepted = true
        /\ Mongo.incomplete b = false)
  /\ map Product.id (snd (Mongo.put_product m accepted b i collection))
     = map Product.id collection
  /\ length (snd (Mongo.put_product m accepted b i collection))
     = length collection
  /\ (accepted = false ->
      snd (Mongo.post_product m accepted e b collection) = collection
      /\ snd (Mongo.put_product m accepted b i collection) = collection)
  /\ (b !! "inStock" = None ->
      Mongo.post_product m accepted e b collection
      = ({| status := 400; content := MessageJson "All fields are required" |},
         collection)
      /\ Mongo.put_product m accepted b i collection
         = ({| status := 400;
               content := MessageJson "All fields are required" |},
            collection)).
Proof.
  unfold Mongo.post_product, Mongo.put_product.
  split; [|split; [|split; [|split]]].
  - destruct (Mongo.incomplete b) eqn:Hinc; [left; reflexivity|].
    destruct (Mongo.document m (uuid e) b) as [p|] eqn:Hdoc;
      [|left; reflexivity].
    destruct accepted; [|left; reflexivity].
    right. exists p. repeat split. now apply (document_id m _ b).
  - destruct (Mongo.incomplete b); [reflexivity|].
    destruct (JS.findIndex (Rich.has_id i) collection) as [k|] eqn:Hk;
      [|reflexivity].
    destruct (Mongo.document m i b) as [p|] eqn:Hdoc; [|reflexivity].
    destruct accepted; [|reflexivity]. simpl.
    destruct (findIndex_Some _ _ _ Hk) as [old [Hold Hid]].
    apply String.eqb_eq in Hid. apply (replace_keeps_ids _ _ old _ Hold).
    rewrite (document_id m i b p Hdoc). now symmetry.
  - case_ifs; case_matches; simpl; try reflexivity.
    all: try apply length_insert.
  - intros ->. case_ifs; case_matches; split; reflexivity.
  - intros Hs. unfold Mongo.incomplete. rewrite Hs. simpl.
    rewrite !orb_true_r. split; reflexivity.
Qed.

End Collection.
